(** * play.py: backend selection and fallback execution

    A shallow embedding of [play.py], the PCM5100 (I2S) playback smoke test.
    The script locates external tools, builds an ordered list of candidate
    playback commands and runs them until one succeeds.

    Everything the script asks of its host (tool lookup, file tests, child
    processes, temporary directories) is answered by a [World]: a family of
    oracles indexed by the number of requests made so far, so that a tool can
    be found at one moment and gone at the next.  The script itself is a
    computation in a small monad that threads the request counter and a log
    of events, and ends in a value, an uncaught Python exception, or runs
    out of fuel inside the one unbounded loop of the source. *)

From Stdlib Require Import String Ascii List ZArith Bool Arith Lia.
From Stdlib Require Import Decimal DecimalString DecimalZ.
Import ListNotations.

Local Open Scope string_scope.
Local Open Scope Z_scope.

(** ** Python values *)

(** [str(n)] for an [int]. *)
Definition str (n : Z) : string := NilZero.string_of_int (Z.to_int n).

(** ASCII whitespace, which [int] skips at both ends of its argument. *)
Definition is_space (c : ascii) : bool :=
  let n := nat_of_ascii c in
  ((9 <=? n)%nat && (n <=? 13)%nat) || (n =? 32)%nat.

Fixpoint lstrip (s : string) : string :=
  match s with
  | EmptyString => EmptyString
  | String c rest => if is_space c then lstrip rest else s
  end.

Fixpoint rstrip (s : string) : string :=
  match s with
  | EmptyString => EmptyString
  | String c rest =>
      match rstrip rest with
      | EmptyString => if is_space c then EmptyString else String c EmptyString
      | kept => String c kept
      end
  end.

(** The digits of a decimal literal: at least one digit, and single
    underscores between digits only. *)
Fixpoint literal_digits (after_digit : bool) (s : string)
    : option Decimal.uint :=
  match s with
  | EmptyString => if after_digit then Some Decimal.Nil else None
  | String c rest =>
      if Ascii.eqb c "_" then
        if after_digit then literal_digits false rest else None
      else uint_of_char c (literal_digits true rest)
  end.

(** [int(s)] for a [str] of ASCII characters: whitespace at both ends is
    skipped, a sign may precede the digits, leading zeros are allowed;
    [None] stands for [ValueError]. *)
Definition int_of_str (s : string) : option Z :=
  match rstrip (lstrip s) with
  | EmptyString => None
  | String c rest =>
      if Ascii.eqb c "-" then
        option_map (fun d => Z.of_int (Decimal.Neg d))
          (literal_digits false rest)
      else if Ascii.eqb c "+" then
        option_map (fun d => Z.of_int (Decimal.Pos d))
          (literal_digits false rest)
      else
        option_map (fun d => Z.of_int (Decimal.Pos d))
          (literal_digits false (String c rest))
  end.

(** Truthiness of a [str]. *)
Definition truthy_str (s : string) : bool :=
  match s with
  | EmptyString => false
  | String _ _ => true
  end.

(** Truthiness of an [Optional[str]]: [None] and [""] are false. *)
Definition truthy (o : option string) : bool :=
  match o with
  | Some s => truthy_str s
  | None => false
  end.

(** The string held by a truthy [Optional[str]]. *)
Definition the (o : option string) : string :=
  match o with
  | Some s => s
  | None => ""
  end.

(** [o or d] for an [Optional[str]] [o]. *)
Definition or_default (o : option string) (d : string) : string :=
  if truthy o then the o else d.

(** [needle in hay]. *)
Fixpoint contains (needle hay : string) : bool :=
  String.prefix needle hay ||
  match hay with
  | EmptyString => false
  | String _ rest => contains needle rest
  end.

Definition lower_ascii (c : ascii) : ascii :=
  let n := nat_of_ascii c in
  if (65 <=? n)%nat && (n <=? 90)%nat then ascii_of_nat (n + 32) else c.

(** [s.lower()], on ASCII letters. *)
Fixpoint lower (s : string) : string :=
  match s with
  | EmptyString => EmptyString
  | String c rest => String (lower_ascii c) (lower rest)
  end.

Definition newline : string := String (ascii_of_nat 10) EmptyString.

(** ** Invocation descriptors *)

Record Cmd := mkCmd { exe : string; args : list string }.

Definition as_list (c : Cmd) : list string := exe c :: args c.

(** The sentinel executable name of the decode-then-play descriptor. *)
Definition ffmpeg_aplay : string := "__ffmpeg_aplay__".

(** ** The host *)

(** The exceptions a run can end in.  [OSError] stands for the errors of
    the operating system other than the two that are named. *)
Inductive exn := FileNotFoundError | PermissionError | OSError | ValueError.

(** What [subprocess.run(..., check=False)] can do: the child ran and left a
    return code (and, when captured, its output), or the child could not be
    started and the call raised -- [FileNotFoundError] when the executable
    is not there, [PermissionError] when it may not be executed, another
    [OSError] when, for one, it has no executable format. *)
Inductive proc_result :=
| Exited (returncode : Z) (stdout : string)
| LaunchError (e : exn).

(** The executable was not there to launch. *)
Definition LaunchNotFound : proc_result := LaunchError FileNotFoundError.

Record World := {
  (** [Path(p).expanduser().resolve()], as a string *)
  resolve : string -> string;
  (** [Path.exists()] *)
  path_exists : nat -> string -> bool;
  (** [shutil.which] *)
  which : nat -> string -> option string;
  (** [subprocess.run] on an argument vector *)
  spawn : nat -> list string -> proc_result;
  (** [Path.read_text(errors="replace").strip()] on a file that is read or
      is not there: the text, or [None] for [FileNotFoundError].  A read
      that fails in another way (no permission, a directory in place of
      the file) is not among the hosts modelled here. *)
  read_text : nat -> string -> option string;
  (** [platform.machine()] *)
  machine : string;
  (** the directory made by [tempfile.TemporaryDirectory] *)
  mkdtemp : nat -> string
}.

(** ** Events and messages *)

Inductive stream := Stdout | Stderr.

(** The lines the script prints.  A message carries the values that the
    source formats into the text; the formatting itself (f-strings, shell
    quoting of a command line) is not modelled. *)
Inductive message :=
| FileNotFoundMsg (path : string)
| ListingHeader (flag : string)
| ListingBody (raw : string)
| I2sSetupHint
| NoBackendFound
| UsingPipeline (device_arg : string)
| WouldRunPipeline
| UsingBackend (exe_path : string)
| Running (c : Cmd)
| BackendFailed (returncode : Z)
| AllFailed.

Inductive event :=
| EvExists (path : string)
| EvWhich (name : string)
| EvCapture (argv : list string)   (* a child run by [_run_capture] *)
| EvRun (argv : list string)       (* a child run with inherited streams *)
| EvReadText (path : string)
| EvMkTemp (dir : string)
| EvRmTemp (dir : string)
| EvPrint (to : stream) (m : message).

Record State := mkState { clock : nat; trace : list event }.

Definition initial : State := mkState 0 [].

(** ** The monad *)

Inductive outcome (A : Type) :=
| Val (a : A)
| Exn (e : exn)
| Hang.

Arguments Val {A} a.
Arguments Exn {A} e.
Arguments Hang {A}.

Definition M (A : Type) : Type := State -> outcome A * State.

Definition ret {A} (a : A) : M A := fun s => (Val a, s).

Definition raise {A} (e : exn) : M A := fun s => (Exn e, s).

Definition hang {A} : M A := fun s => (Hang, s).

Definition bind {A B} (m : M A) (k : A -> M B) : M B :=
  fun s =>
    match m s with
    | (Val a, s') => k a s'
    | (Exn e, s') => (Exn e, s')
    | (Hang, s') => (Hang, s')
    end.

Declare Scope py_scope.
Delimit Scope py_scope with py.
Notation "x <- m ;; k" := (bind m (fun x => k))
  (at level 61, m at next level, right associativity) : py_scope.
Notation "m ;; k" := (bind m (fun _ => k))
  (at level 61, right associativity) : py_scope.
Local Open Scope py_scope.

(** A request to the host: it is logged and the counter advances. *)
Definition ask {A} (ev : event) (answer : nat -> A) : M A :=
  fun s => (Val (answer (clock s)), mkState (S (clock s)) (trace s ++ [ev])).

(** A log entry that asks nothing of the host. *)
Definition emit (ev : event) : M unit :=
  fun s => (Val tt, mkState (clock s) (trace s ++ [ev])).

Definition print (to : stream) (m : message) : M unit := emit (EvPrint to m).

(** ** Thin wrappers over the host *)

Section Script.

Variable w : World.

(** [_which] *)
Definition _which (name : string) : M (option string) :=
  ask (EvWhich name) (fun t => which w t name).

Definition exists_ (p : string) : M bool :=
  ask (EvExists p) (fun t => path_exists w t p).

(** [subprocess.run(argv, check=False)]: the return code, or the exception
    of a launch that failed. *)
Definition subprocess_run (argv : list string) : M Z :=
  r <- ask (EvRun argv) (fun t => spawn w t argv) ;;
  match r with
  | Exited rc _ => ret rc
  | LaunchError e => raise e
  end.

(** [_run_capture(cmd).stdout] *)
Definition _run_capture (argv : list string) : M string :=
  r <- ask (EvCapture argv) (fun t => spawn w t argv) ;;
  match r with
  | Exited _ out => ret out
  | LaunchError e => raise e
  end.

(** [_read_text_if_exists]: [FileNotFoundError], the one exception the
    source catches here, becomes [None]. *)
Definition _read_text_if_exists (p : string) : M (option string) :=
  ask (EvReadText p) (fun t => read_text w t p).

(** ** Environment probing *)

Definition is_pi_model (model : option string) : bool :=
  truthy model && contains "Raspberry Pi" (the model).

Definition _is_raspberry_pi : M bool :=
  model <- _read_text_if_exists "/proc/device-tree/model" ;;
  if is_pi_model model then ret true
  else if String.prefix "aarch64" (machine w) || String.prefix "arm" (machine w)
  then
    present <- exists_ "/sys/firmware/devicetree/base/model" ;;
    if present then
      m2 <- _read_text_if_exists "/sys/firmware/devicetree/base/model" ;;
      ret (is_pi_model m2)
    else ret false
  else ret false.

Definition _aplay_list_cards : M string :=
  aplay <- _which "aplay" ;;
  if negb (truthy aplay) then ret ""
  else _run_capture [the aplay; "-l"].

Definition _aplay_list_pcms : M string :=
  aplay <- _which "aplay" ;;
  if negb (truthy aplay) then ret ""
  else _run_capture [the aplay; "-L"].

Definition keywords : list string :=
  ["hifiberry"; "i2s"; "snd_rpi_hifiberry_dac"; "sndrpihifiberry";
   "rpi-dac"; "rpidac"; "dac"; "pcm51"].

Definition _guess_pcm5100_card_present (aplay_l aplay_L : string) : bool :=
  let hay := lower (aplay_l ++ newline ++ aplay_L) in
  existsb (fun k => contains k hay) keywords.

Definition _print_i2s_setup_hint : M unit := print Stderr I2sSetupHint.

(** ** Candidate generation *)

(** The argument list built for mpg123 (lines 132-140). *)
Definition mpg123_args (mp3_path : string) (device : option string)
    (loops : Z) : list string :=
  (if truthy device then ["-a"; the device] else []) ++
  (if loops <? 0 then ["--loop"; "-1"]
   else if loops >? 1 then ["--loop"; str loops]
   else []) ++
  [mp3_path].

(** The argument list built for ffplay (lines 147-152). *)
Definition ffplay_args (mp3_path : string) (loops : Z) : list string :=
  ["-nodisp"; "-autoexit"; "-loglevel"; "error"] ++
  (if loops <? 0 then ["-loop"; "0"]
   else if loops >? 1 then ["-loop"; str (loops - 1)]
   else []) ++
  [mp3_path].

(** The descriptor of the decode-then-play pipeline (line 161). *)
Definition pipeline_cmd (mp3_path : string) (device : option string)
    (loops : Z) : Cmd :=
  mkCmd ffmpeg_aplay [mp3_path; or_default device "default"; str loops].

(** [list(_backend_commands(mp3_path, device, loops))]: the generator is
    consumed at once by [main], so its lookups happen in source order. *)
Definition _backend_commands (mp3_path : string) (device : option string)
    (loops : Z) : M (list Cmd) :=
  mpg123 <- _which "mpg123" ;;
  let ya := if truthy mpg123
            then [mkCmd (the mpg123) (mpg123_args mp3_path device loops)]
            else [] in
  ffplay <- _which "ffplay" ;;
  let yb := if truthy ffplay
            then [mkCmd (the ffplay) (ffplay_args mp3_path loops)]
            else [] in
  ffmpeg <- _which "ffmpeg" ;;
  aplay <- _which "aplay" ;;
  let yc := if truthy ffmpeg && truthy aplay
            then [pipeline_cmd mp3_path device loops]
            else [] in
  ret (ya ++ yb ++ yc)%list.

(** ** The decode-then-play pipeline *)

Definition decode_argv (ffmpeg mp3_path wav_path : string) : list string :=
  [ffmpeg; "-hide_banner"; "-loglevel"; "error"; "-y"; "-i"; mp3_path;
   "-ac"; "2"; "-ar"; "44100"; wav_path].

Definition play_argv (aplay device wav_path : string) : list string :=
  ([aplay] ++
   (if truthy_str device && negb (String.eqb device "default")
    then ["-D"; device] else [])) ++
  [wav_path].

(** [with tempfile.TemporaryDirectory(prefix=...) as td: body]: the
    directory is removed when the body returns or raises. *)
Definition with_tempdir {A} (body : string -> M A) : M A :=
  fun s =>
    let td := mkdtemp w (clock s) in
    let s1 := mkState (S (clock s)) (trace s ++ [EvMkTemp td]) in
    match body td s1 with
    | (Hang, s2) => (Hang, s2)
    | (r, s2) => (r, mkState (clock s2) (trace s2 ++ [EvRmTemp td]))
    end.

(** [while True:] play; leave with the first non-zero return code. *)
Fixpoint play_forever (fuel : nat) (argv : list string) : M Z :=
  match fuel with
  | O => hang
  | S fuel' =>
      rc <- subprocess_run argv ;;
      if negb (rc =? 0) then ret rc else play_forever fuel' argv
  end.

(** [for _ in range(n):] play; leave with the first non-zero return code,
    and with 0 after the last round. *)
Fixpoint play_times (n : nat) (argv : list string) : M Z :=
  match n with
  | O => ret 0
  | S n' =>
      rc <- subprocess_run argv ;;
      if negb (rc =? 0) then ret rc else play_times n' argv
  end.

Definition _run_ffmpeg_to_wav_then_aplay (fuel : nat) (mp3_path : string)
    (device : string) (loops : Z) : M Z :=
  ffmpeg <- _which "ffmpeg" ;;
  aplay <- _which "aplay" ;;
  if negb (truthy ffmpeg) || negb (truthy aplay) then ret 127
  else
    with_tempdir (fun td =>
      let wav_path := td ++ "/decoded.wav" in
      rc1 <- subprocess_run (decode_argv (the ffmpeg) mp3_path wav_path) ;;
      if negb (rc1 =? 0) then ret rc1
      else
        let argv := play_argv (the aplay) device wav_path in
        if loops <? 0 then play_forever fuel argv
        else play_times (Z.to_nat (Z.max 1 loops)) argv).

(** ** The orchestrator *)

Record Args := mkArgs {
  file : string;
  device : option string;
  loops : Z;
  list_devices : bool;
  dry_run : bool
}.

(** What one round of the [for cmd in candidates] loop ends in. *)
Inductive round :=
| Next                (* fall through or [continue]: on to the next one *)
| Return (status : Z) (* [return status] out of [main] *).

(** The body of the candidate loop (lines 275-296). *)
Definition attempt (fuel : nat) (a : Args) (cmd : Cmd) : M round :=
  if String.eqb (exe cmd) ffmpeg_aplay then
    match args cmd with
    | [mp3_arg; device_arg; loops_arg] =>
        print Stdout (UsingPipeline device_arg) ;;
        if dry_run a then
          print Stdout WouldRunPipeline ;;
          ret (Return 0)
        else
          match int_of_str loops_arg with
          | Some n =>
              rc <- _run_ffmpeg_to_wav_then_aplay fuel mp3_arg device_arg n ;;
              ret (Return rc)
          | None => raise ValueError
          end
    | _ => raise ValueError
    end
  else
    print Stdout (UsingBackend (exe cmd)) ;;
    print Stdout (Running cmd) ;;
    if dry_run a then ret (Return 0)
    else
      fun s =>
        match subprocess_run (as_list cmd) s with
        | (Exn FileNotFoundError, s') => (Val Next, s')
        | (Val rc, s') =>
            if rc =? 0 then (Val (Return 0), s')
            else (print Stderr (BackendFailed rc) ;; ret Next) s'
        | (Exn e, s') => (Exn e, s')
        | (Hang, s') => (Hang, s')
        end.

(** The candidate loop and what follows it (lines 274-299). *)
Fixpoint try_candidates (fuel : nat) (a : Args) (candidates : list Cmd)
    : M Z :=
  match candidates with
  | [] =>
      print Stderr AllFailed ;;
      ret 1
  | cmd :: rest =>
      r <- attempt fuel a cmd ;;
      match r with
      | Return status => ret status
      | Next => try_candidates fuel a rest
      end
  end.

(** [main], once [argparse] has produced [a] (lines 242-299). *)
Definition main (fuel : nat) (a : Args) : M Z :=
  let mp3_path := resolve w (file a) in
  present <- exists_ mp3_path ;;
  if negb present then
    print Stderr (FileNotFoundMsg mp3_path) ;;
    ret 2
  else
    aplay_l <- _aplay_list_cards ;;
    aplay_L <- _aplay_list_pcms ;;
    if list_devices a then
      print Stdout (ListingHeader "aplay -l") ;;
      print Stdout (ListingBody aplay_l) ;;
      print Stdout (ListingHeader "aplay -L") ;;
      print Stdout (ListingBody aplay_L) ;;
      ret 0
    else
      pi <- _is_raspberry_pi ;;
      (if pi && negb (_guess_pcm5100_card_present aplay_l aplay_L)
       then _print_i2s_setup_hint else ret tt) ;;
      candidates <- _backend_commands mp3_path (device a) (loops a) ;;
      match candidates with
      | [] =>
          print Stderr NoBackendFound ;;
          ret 127
      | _ => try_candidates fuel a candidates
      end.

End Script.

(** ** Reading a run *)

(** The candidates a run of the generator yielded. *)
Definition yielded (r : outcome (list Cmd) * State) : list Cmd :=
  match fst r with
  | Val l => l
  | _ => []
  end.

(** The events a run from [s] to [r] added to the log of [s]. *)
Definition added (s : State) (r : State) : list event :=
  skipn (length (trace s)) (trace r).

(** A child process of either kind. *)
Definition is_child (ev : event) : bool :=
  match ev with
  | EvCapture _ | EvRun _ => true
  | _ => false
  end.

(** A tool lookup or a child process: the ways the script touches an
    external tool. *)
Definition touches_tool (ev : event) : bool :=
  match ev with
  | EvWhich _ | EvCapture _ | EvRun _ => true
  | _ => false
  end.

(** [s'] continues the log of [s] with events that all satisfy [P]. *)
Definition extends (P : event -> Prop) (s s' : State) : Prop :=
  exists evs, trace s' = (trace s ++ evs)%list /\ Forall P evs.

(** From every state, [m] ends in a value satisfying [Q], having logged
    only events that satisfy [P]. *)
Definition ends_in {A} (P : event -> Prop) (Q : A -> Prop) (m : M A) : Prop :=
  forall s, exists x s', m s = (Val x, s') /\ Q x /\ extends P s s'.

(** The child of a listing step: [aplay] with the flag when aplay was
    located, none otherwise. *)
Definition listing_events (aplay : option string) (flag : string)
    : list event :=
  if truthy aplay then [EvCapture [the aplay; flag]] else [].

(** The requests a listing step makes after its lookup. *)
Definition listing_ticks (aplay : option string) : nat :=
  if truthy aplay then 1 else 0.

(** The text a listing step returns: the output of the child run at
    moment [t], or [""] when aplay was not located. *)
Definition listing_text (w : World) (t : nat) (aplay : option string)
    (flag : string) : string :=
  if truthy aplay then
    match spawn w t [the aplay; flag] with
    | Exited _ out => out
    | LaunchError _ => ""
    end
  else "".

(** An event that starts no process and touches no temporary directory. *)
Definition starts_nothing (ev : event) : Prop :=
  match ev with
  | EvCapture _ | EvRun _ | EvMkTemp _ | EvRmTemp _ => False
  | _ => True
  end.

(** The events of a run that plays nothing: no child with inherited
    streams, no temporary directory, and as captured children only the
    two device listings of [aplay]. *)
Definition plays_nothing (aplay : string) (ev : event) : Prop :=
  match ev with
  | EvRun _ | EvMkTemp _ | EvRmTemp _ => False
  | EvCapture argv => argv = [aplay; "-l"] \/ argv = [aplay; "-L"]
  | _ => True
  end.

(** ** Requests that differ in one field *)

Definition with_device (a : Args) (d : option string) : Args :=
  mkArgs (file a) d (loops a) (list_devices a) (dry_run a).

Definition with_loops (a : Args) (n : Z) : Args :=
  mkArgs (file a) (device a) n (list_devices a) (dry_run a).

(** ** Assumptions on the host *)

(** A tool environment that does not change during a run. *)
Definition tools_fixed (w : World) (tools : string -> option string) : Prop :=
  forall t name, which w t name = tools name.

(** Every child the host is asked to run can be launched. *)
Definition children_launch (w : World) : Prop :=
  forall t argv e, spawn w t argv <> LaunchError e.

(** No tool is located under the sentinel name of the pipeline
    descriptor: [shutil.which] returns a path that ends in the name it
    was asked for. *)
Definition no_sentinel_path (tools : string -> option string) : Prop :=
  forall name, tools name <> Some ffmpeg_aplay.

(** ** The three backends, in the words of the specification *)

Inductive backend := BackendA | BackendB | BackendC.

Definition preference : list backend := [BackendA; BackendB; BackendC].

Definition required (b : backend) : list string :=
  match b with
  | BackendA => ["mpg123"]
  | BackendB => ["ffplay"]
  | BackendC => ["ffmpeg"; "aplay"]
  end.

Definition found (tools : string -> option string) (name : string) : bool :=
  truthy (tools name).

Definition available (tools : string -> option string) (b : backend) : bool :=
  forallb (found tools) (required b).

Definition descriptor (tools : string -> option string) (mp3_path : string)
    (device : option string) (loops : Z) (b : backend) : Cmd :=
  match b with
  | BackendA =>
      mkCmd (the (tools "mpg123")) (mpg123_args mp3_path device loops)
  | BackendB => mkCmd (the (tools "ffplay")) (ffplay_args mp3_path loops)
  | BackendC => pipeline_cmd mp3_path device loops
  end.

(** ** The fallback policy, in the words of the specification *)

(** A simple invocation, as opposed to the pipeline descriptor. *)
Definition simple (cmd : Cmd) : bool :=
  negb (String.eqb (exe cmd) ffmpeg_aplay).

(** The pipeline descriptor, if there is one, comes last: the shape of
    every list the generator yields. *)
Fixpoint pipeline_last (candidates : list Cmd) : bool :=
  match candidates with
  | [] => true
  | cmd :: rest =>
      match rest with
      | [] => true
      | _ :: _ => simple cmd && pipeline_last rest
      end
  end.

(** The state after a simple backend was announced and its child run. *)
Definition launched (cmd : Cmd) (s : State) : State :=
  mkState (S (clock s))
    (trace s ++ [EvPrint Stdout (UsingBackend (exe cmd));
                 EvPrint Stdout (Running cmd);
                 EvRun (as_list cmd)]).

(** The state after the failure of a backend was reported. *)
Definition reported (returncode : Z) (s : State) : State :=
  mkState (clock s) (trace s ++ [EvPrint Stderr (BackendFailed returncode)]).

(** The state after the pipeline backend was announced. *)
Definition pipeline_announced (device_arg : string) (s : State) : State :=
  mkState (clock s) (trace s ++ [EvPrint Stdout (UsingPipeline device_arg)]).

(** [each_failed w fuel candidates s]: run in order from state [s], every
    candidate was executed and every execution failed -- a simple backend
    by a non-zero return code or by [FileNotFoundError] at launch, the
    pipeline by returning a non-zero status. *)
Inductive each_failed (w : World) (fuel : nat) : list Cmd -> State -> Prop :=
| none_left (s : State) : each_failed w fuel [] s
| simple_failed (cmd : Cmd) (rest : list Cmd) (s : State) (k : Z)
    (out : string) :
    simple cmd = true ->
    spawn w (clock s) (as_list cmd) = Exited k out ->
    k <> 0 ->
    each_failed w fuel rest (reported k (launched cmd s)) ->
    each_failed w fuel (cmd :: rest) s
| simple_not_launched (cmd : Cmd) (rest : list Cmd) (s : State) :
    simple cmd = true ->
    spawn w (clock s) (as_list cmd) = LaunchNotFound ->
    each_failed w fuel rest (launched cmd s) ->
    each_failed w fuel (cmd :: rest) s
| pipeline_failed (mp3_arg device_arg loops_arg : string) (n : Z)
    (s s' : State) (k : Z) :
    int_of_str loops_arg = Some n ->
    _run_ffmpeg_to_wav_then_aplay w fuel mp3_arg device_arg n
      (pipeline_announced device_arg s) = (Val k, s') ->
    k <> 0 ->
    each_failed w fuel [mkCmd ffmpeg_aplay [mp3_arg; device_arg; loops_arg]] s.

(** ** Sample hosts and requests *)

Definition in_usr_bin (installed : list string) (name : string)
    : option string :=
  if existsb (String.eqb name) installed then Some ("/usr/bin/" ++ name)
  else None.

(** A host whose answers do not depend on the moment of asking. *)
Definition host (tools : string -> option string) (present : string -> bool)
    (run : list string -> proc_result) : World :=
  {| resolve := fun p => "/home/pi/" ++ p;
     path_exists := fun _ p => present p;
     which := fun _ name => tools name;
     spawn := fun _ argv => run argv;
     read_text := fun _ _ => None;
     machine := "x86_64";
     mkdtemp := fun _ => "/tmp/pcm5100_test_k3x9" |}.

Definition all_tools : string -> option string :=
  in_usr_bin ["mpg123"; "ffplay"; "ffmpeg"; "aplay"].

Definition only_pipeline_tools : string -> option string :=
  in_usr_bin ["ffmpeg"; "aplay"].

Definition no_tools : string -> option string := in_usr_bin [].

Definition every_child_succeeds (argv : list string) : proc_result :=
  Exited 0 "".

Definition launched_by (tool : string) (argv : list string) : bool :=
  match argv with
  | exe_path :: _ => String.eqb exe_path ("/usr/bin/" ++ tool)
  | [] => false
  end.

(** mpg123 exits with status 1; every other child succeeds. *)
Definition mpg123_exits_1 (argv : list string) : proc_result :=
  if launched_by "mpg123" argv then Exited 1 "" else Exited 0 "".

(** ffmpeg exits with status 5; every other child succeeds. *)
Definition decoder_exits_5 (argv : list string) : proc_result :=
  if launched_by "ffmpeg" argv then Exited 5 "" else Exited 0 "".

Definition quiet_host : World :=
  host all_tools (fun _ => true) every_child_succeeds.

Definition bare_host : World :=
  host no_tools (fun _ => true) every_child_succeeds.

Definition failing_mpg123_host : World :=
  host all_tools (fun _ => true) mpg123_exits_1.

Definition broken_decoder_host : World :=
  host only_pipeline_tools (fun _ => true) decoder_exits_5.

(** A host with every tool but without the requested file. *)
Definition no_file_host : World :=
  host all_tools (fun _ => false) every_child_succeeds.

(** mpg123 is located but may not be executed; every other child
    succeeds. *)
Definition mpg123_not_executable (argv : list string) : proc_result :=
  if launched_by "mpg123" argv then LaunchError PermissionError
  else Exited 0 "".

Definition unexecutable_mpg123_host : World :=
  host all_tools (fun _ => true) mpg123_not_executable.

(** aplay is found by [shutil.which] and gone when it is to be run. *)
Definition vanishing_aplay_host : World :=
  host all_tools (fun _ => true) (fun _ => LaunchNotFound).

Definition play_request : Args :=
  mkArgs "track1.mp3" None 1 false false.

Definition list_request : Args :=
  mkArgs "track1.mp3" None 1 true false.

Definition dry_request : Args :=
  mkArgs "track1.mp3" None 1 false true.

(** ** Properties of whole runs *)

(** Whatever [m] ends in -- a value, an exception, or no end at all -- it
    logs only events that satisfy [P]. *)
Definition logs_only {A} (P : event -> Prop) (m : M A) : Prop :=
  forall s, extends P s (snd (m s)).

(** Every value [m] returns satisfies [Q]. *)
Definition returns_in {A} (Q : A -> Prop) (m : M A) : Prop :=
  forall s x s', m s = (Val x, s') -> Q x.

(** The exit statuses the script chooses itself: success, all backends
    failed, file not found, no backend found. *)
Definition policy_status (rc : Z) : Prop := In rc [0; 1; 2; 127].

(** The pipeline backend was announced between [s] and [s']. *)
Definition pipeline_announced_since (s s' : State) : Prop :=
  exists before device_arg after,
    trace s' =
      (trace s ++ before ++
       EvPrint Stdout (UsingPipeline device_arg) :: after)%list.

(** Whatever status [m] returns is one the script chooses itself, unless
    the pipeline backend was announced on the way. *)
Definition status_law (m : M Z) : Prop :=
  forall s rc s',
    m s = (Val rc, s') -> policy_status rc \/ pipeline_announced_since s s'.

(** The two files [_is_raspberry_pi] reads. *)
Definition model_files : list string :=
  ["/proc/device-tree/model"; "/sys/firmware/devicetree/base/model"].

Definition is_run (ev : event) : Prop :=
  match ev with
  | EvRun _ => True
  | _ => False
  end.

(** The events of [_is_raspberry_pi]: file reads and existence tests. *)
Definition reads_only (ev : event) : Prop :=
  match ev with
  | EvReadText _ | EvExists _ => True
  | _ => False
  end.

(** The names the script ever hands to [shutil.which]. *)
Definition tool_names : list string := ["mpg123"; "ffplay"; "ffmpeg"; "aplay"].

(** [p] is a path that [shutil.which] returned, at some moment, for one of
    the four tools. *)
Definition located_path (w : World) (p : string) : Prop :=
  exists t name,
    In name tool_names /\ which w t name = Some p /\ truthy_str p = true.

(** A candidate the loop can run: unless it carries the sentinel name of
    the pipeline, its executable is a path [shutil.which] returned. *)
Definition launchable (w : World) (cmd : Cmd) : Prop :=
  String.eqb (exe cmd) ffmpeg_aplay = false -> located_path w (exe cmd).

(** The messages of the diagnostic stream. *)
Definition diagnostic (m : message) : bool :=
  match m with
  | FileNotFoundMsg _ | I2sSetupHint | NoBackendFound | BackendFailed _
  | AllFailed => true
  | _ => false
  end.

(** The lookups and children of a run stay within the four tools. *)
Definition within_tools (w : World) (ev : event) : Prop :=
  match ev with
  | EvWhich name => In name tool_names
  | EvCapture argv | EvRun argv =>
      exists p rest, argv = p :: rest /\ located_path w p
  | _ => True
  end.

(** Diagnostics go to stderr, everything else to stdout. *)
Definition on_its_stream (ev : event) : Prop :=
  match ev with
  | EvPrint Stderr m => diagnostic m = true
  | EvPrint Stdout m => diagnostic m = false
  | _ => True
  end.

(** A string without a line break. *)
Definition single_line (s : string) : bool := negb (contains newline s).

(** The keywords that decide [_guess_pcm5100_card_present]: each of the
    other four contains one of these. *)
Definition core_keywords : list string := ["hifiberry"; "i2s"; "dac"; "pcm51"].

(** ** More sample hosts *)

Definition every_child_fails (argv : list string) : proc_result :=
  Exited 1 "".

Definition only_simple_tools : string -> option string :=
  in_usr_bin ["mpg123"; "ffplay"].

Definition failing_simple_host : World :=
  host only_simple_tools (fun _ => true) every_child_fails.

(** The tools are there for the first [n] requests and gone afterwards. *)
Definition tools_until (n : nat) (tools : string -> option string) : World :=
  {| resolve := fun p => "/home/pi/" ++ p;
     path_exists := fun _ _ => true;
     which := fun t name => if (t <? n)%nat then tools name else None;
     spawn := fun _ _ => Exited 0 "";
     read_text := fun _ _ => None;
     machine := "x86_64";
     mkdtemp := fun _ => "/tmp/pcm5100_test_k3x9" |}.

(** Every child succeeds until request [n]; from then on children exit
    with status [k]. *)
Definition children_fail_from (n : nat) (k : Z) : World :=
  {| resolve := fun p => "/home/pi/" ++ p;
     path_exists := fun _ _ => true;
     which := fun _ name => all_tools name;
     spawn := fun t _ => if (t <? n)%nat then Exited 0 "" else Exited k "";
     read_text := fun _ _ => None;
     machine := "x86_64";
     mkdtemp := fun _ => "/tmp/pcm5100_test_k3x9" |}.

(** ffmpeg is located but cannot be launched. *)
Definition decoder_not_launched (argv : list string) : proc_result :=
  if launched_by "ffmpeg" argv then LaunchNotFound else Exited 0 "".

Definition unlaunchable_decoder_host : World :=
  host only_pipeline_tools (fun _ => true) decoder_not_launched.

(** A Raspberry Pi whose ALSA listing names no I2S card. *)
Definition pi_without_dac : World :=
  {| resolve := fun p => "/home/pi/" ++ p;
     path_exists := fun _ _ => true;
     which := fun _ name => all_tools name;
     spawn := fun _ _ => Exited 0 "card 0: vc4hdmi0 [vc4-hdmi-0]";
     read_text := fun _ _ => Some "Raspberry Pi 5 Model B Rev 1.0";
     machine := "aarch64";
     mkdtemp := fun _ => "/tmp/pcm5100_test_k3x9" |}.

Definition loop_request (n : Z) : Args :=
  mkArgs "track1.mp3" None n false false.

(** ** Basic facts *)

Lemma rstrip_digits (d : Decimal.uint) :
  rstrip (NilEmpty.string_of_uint d) = NilEmpty.string_of_uint d.
Proof.
  induction d; cbn [NilEmpty.string_of_uint rstrip]; [reflexivity | ..];
    rewrite IHd; now destruct (NilEmpty.string_of_uint d).
Qed.

Lemma literal_digits_after (d : Decimal.uint) :
  literal_digits true (NilEmpty.string_of_uint d) = Some d.
Proof.
  induction d; cbn [NilEmpty.string_of_uint literal_digits];
    [reflexivity | ..]; cbn [Ascii.eqb Bool.eqb]; now rewrite IHd.
Qed.

Lemma literal_digits_first (d : Decimal.uint) :
  d <> Decimal.Nil ->
  literal_digits false (NilEmpty.string_of_uint d) = Some d.
Proof.
  destruct d; [now intros H | ..]; intros _;
    cbn [NilEmpty.string_of_uint literal_digits Ascii.eqb Bool.eqb];
    now rewrite literal_digits_after.
Qed.

(** [int] reads back the literal of an unsigned number, with or without
    a minus sign. *)
Lemma int_of_str_literal (d : Decimal.uint) :
  d <> Decimal.Nil ->
  int_of_str (NilEmpty.string_of_uint d) = Some (Z.of_int (Decimal.Pos d)) /\
  int_of_str (String "-" (NilEmpty.string_of_uint d)) =
    Some (Z.of_int (Decimal.Neg d)).
Proof.
  intros Hd. unfold int_of_str. split.
  - assert (E : lstrip (NilEmpty.string_of_uint d) =
                NilEmpty.string_of_uint d)
      by (destruct d; reflexivity).
    rewrite E, rstrip_digits.
    pose proof (literal_digits_first d Hd) as L.
    destruct d; [now elim Hd | ..];
      cbn [NilEmpty.string_of_uint Ascii.eqb Bool.eqb] in *;
      now rewrite L.
  - cbn [lstrip]. change (is_space "-") with false. cbn iota.
    cbn [rstrip]. rewrite rstrip_digits.
    pose proof (literal_digits_first d Hd) as L.
    destruct (NilEmpty.string_of_uint d); [discriminate L |].
    cbn [Ascii.eqb Bool.eqb]. now rewrite L.
Qed.

Lemma int_of_str_str (n : Z) : int_of_str (str n) = Some n.
Proof.
  unfold str. rewrite <- (DecimalZ.of_to n) at 2.
  destruct n as [| p | p]; [reflexivity | ..];
    cbn [Z.to_int NilZero.string_of_int];
    assert (Hp : Pos.to_uint p <> Decimal.Nil)
      by apply DecimalPos.Unsigned.to_uint_nonnil;
    destruct (int_of_str_literal (Pos.to_uint p) Hp) as [E1 E2];
    unfold NilZero.string_of_uint;
    destruct (Pos.to_uint p) eqn:E; try (now elim Hp);
    first [exact E1 | exact E2].
Qed.

(** What [int] accepts beyond the literals [str] writes, and what it
    refuses. *)
Example int_of_str_samples :
  map int_of_str ["+3"; " 3 "; "1_0"; "007"; "-0"; "-12"]%string =
    [Some 3; Some 3; Some 10; Some 7; Some 0; Some (-12)] /\
  map int_of_str [""; "-"; "_1"; "1_"; "1__0"; "- 3"; "3a"; "hw:1,0"]%string =
    [None; None; None; None; None; None; None; None].
Proof. split; reflexivity. Qed.

(** The generator, as a function of the four lookups it makes. *)
Lemma backend_commands_run (w : World) (mp3_path : string)
    (device : option string) (loops : Z) (s : State) :
  let t := clock s in
  _backend_commands w mp3_path device loops s =
  (Val ((if truthy (which w t "mpg123")
         then [mkCmd (the (which w t "mpg123"))
                     (mpg123_args mp3_path device loops)]
         else []) ++
        (if truthy (which w (S t) "ffplay")
         then [mkCmd (the (which w (S t) "ffplay"))
                     (ffplay_args mp3_path loops)]
         else []) ++
        (if truthy (which w (S (S t)) "ffmpeg") &&
            truthy (which w (S (S (S t))) "aplay")
         then [pipeline_cmd mp3_path device loops]
         else []))%list,
   mkState (4 + t)
     (trace s ++ [EvWhich "mpg123"; EvWhich "ffplay"; EvWhich "ffmpeg";
                  EvWhich "aplay"])).
Proof.
  unfold _backend_commands, bind, _which, ask, ret. simpl.
  now rewrite <- !app_assoc.
Qed.

(** The generator in a fixed tool environment. *)
Lemma backend_commands_fixed (w : World) (tools : string -> option string)
    (mp3_path : string) (device : option string) (loops : Z) (s : State) :
  tools_fixed w tools ->
  _backend_commands w mp3_path device loops s =
  (Val (map (descriptor tools mp3_path device loops)
            (filter (available tools) preference)),
   mkState (4 + clock s)
     (trace s ++ [EvWhich "mpg123"; EvWhich "ffplay"; EvWhich "ffmpeg";
                  EvWhich "aplay"])).
Proof.
  intros Hfix. rewrite backend_commands_run. cbv zeta.
  rewrite !Hfix. unfold preference, available, required, found.
  cbn [filter forallb]. rewrite !andb_true_r.
  destruct (truthy (tools "mpg123")), (truthy (tools "ffplay")),
    (truthy (tools "ffmpeg") && truthy (tools "aplay")); reflexivity.
Qed.

(** ** Candidate generation *)

(** C2. In a fixed tool environment the generator yields the descriptors of
    backend A (mpg123), backend B (ffplay) and backend C (ffmpeg and aplay),
    in that order, keeping exactly those whose required executables are all
    found; when no backend has its executables, it yields nothing. *)
Theorem candidates_are_filtered_preference (w : World)
    (tools : string -> option string) (mp3_path : string)
    (device : option string) (loops : Z) (s : State) :
  tools_fixed w tools ->
  fst (_backend_commands w mp3_path device loops s) =
    Val (map (descriptor tools mp3_path device loops)
             (filter (available tools) preference)) /\
  ((forall b, available tools b = false) ->
   fst (_backend_commands w mp3_path device loops s) = Val []).
Proof.
  intros Hfix.
  rewrite (backend_commands_fixed w tools) by exact Hfix. cbn [fst].
  split; [reflexivity |].
  intros Hnone. unfold preference. cbn [filter]. now rewrite !Hnone.
Qed.

Lemma candidates_are_filtered_preference_witness :
  fst (_backend_commands quiet_host "/home/pi/track1.mp3" None 1 initial) =
    Val (map (descriptor all_tools "/home/pi/track1.mp3" None 1)
             (filter (available all_tools) preference)) /\
  fst (_backend_commands bare_host "/home/pi/track1.mp3" None 1 initial) =
    Val [].
Proof.
  split.
  - apply (candidates_are_filtered_preference quiet_host all_tools
             "/home/pi/track1.mp3" None 1 initial).
    intros t name. reflexivity.
  - apply (candidates_are_filtered_preference bare_host no_tools
             "/home/pi/track1.mp3" None 1 initial).
    + intros t name. reflexivity.
    + intros b. destruct b; reflexivity.
Defined.

(** C3. Backend B (ffplay), whenever it is located, is yielded with the
    fixed flags followed by: the loop flag with [N - 1] when [N > 1]; the
    loop flag with ffplay's infinite token ["0"] when [N < 0]; no loop flag
    at all when [N = 1]; and the file path last. *)
Theorem ffplay_loop_argument (w : World) (mp3_path : string)
    (device : option string) (N : Z) (s : State) :
  truthy (which w (S (clock s)) "ffplay") = true ->
  let b := mkCmd (the (which w (S (clock s)) "ffplay"))
                 (ffplay_args mp3_path N) in
  In b (yielded (_backend_commands w mp3_path device N s)) /\
  (1 < N ->
   args b = ["-nodisp"; "-autoexit"; "-loglevel"; "error";
             "-loop"; str (N - 1); mp3_path]) /\
  (N < 0 ->
   args b = ["-nodisp"; "-autoexit"; "-loglevel"; "error";
             "-loop"; "0"; mp3_path]) /\
  (N = 1 ->
   args b = ["-nodisp"; "-autoexit"; "-loglevel"; "error"; mp3_path]).
Proof.
  intros Hb b. split.
  - unfold yielded. rewrite backend_commands_run. cbn [fst].
    rewrite Hb. apply in_or_app. right. apply in_or_app. left.
    now left.
  - unfold b, ffplay_args. cbn [args].
    repeat split; intros HN.
    + destruct (Z.ltb_spec N 0); [lia |].
      destruct (Z.gtb_spec N 1); [reflexivity | lia].
    + destruct (Z.ltb_spec N 0); [reflexivity | lia].
    + subst N. reflexivity.
Qed.

Lemma ffplay_loop_argument_witness :
  In (mkCmd "/usr/bin/ffplay"
        ["-nodisp"; "-autoexit"; "-loglevel"; "error"; "-loop"; "2";
         "/home/pi/track1.mp3"])
     (yielded (_backend_commands quiet_host "/home/pi/track1.mp3" None 3
                 initial)) /\
  ffplay_args "/home/pi/track1.mp3" (-1) =
    ["-nodisp"; "-autoexit"; "-loglevel"; "error"; "-loop"; "0";
     "/home/pi/track1.mp3"] /\
  ffplay_args "/home/pi/track1.mp3" 1 =
    ["-nodisp"; "-autoexit"; "-loglevel"; "error"; "/home/pi/track1.mp3"].
Proof.
  split; [| split].
  - exact (proj1 (ffplay_loop_argument quiet_host "/home/pi/track1.mp3"
                    None 3 initial eq_refl)).
  - exact (proj1 (proj2 (proj2 (ffplay_loop_argument quiet_host
             "/home/pi/track1.mp3" None (-1) initial eq_refl))) eq_refl).
  - exact (proj2 (proj2 (proj2 (ffplay_loop_argument quiet_host
             "/home/pi/track1.mp3" None 1 initial eq_refl))) eq_refl).
Defined.

(** The device flag of mpg123: present exactly for a non-empty device. *)
Lemma mpg123_args_split (mp3_path : string) (device : option string)
    (loops : Z) :
  exists flag,
    mpg123_args mp3_path device loops =
      (flag ++
       (if loops <? 0 then ["--loop"; "-1"]
        else if loops >? 1 then ["--loop"; str loops] else []) ++
       [mp3_path])%list /\
    (device = None -> flag = []) /\
    (device = Some "" -> flag = []) /\
    (forall d, device = Some d -> d <> "" -> flag = ["-a"; d]).
Proof.
  unfold mpg123_args.
  destruct device as [[| c d] |]; cbn [truthy truthy_str the].
  - exists []. repeat split; congruence.
  - exists ["-a"; String c d]. repeat split; congruence.
  - exists []. repeat split; congruence.
Qed.

(** C4. Backend A (mpg123), whenever it is located, is the first candidate.
    Its arguments are a device flag, a loop flag and the file path, where
    the device flag [-a d] is there exactly when a (non-empty) device [d]
    was supplied, and the loop flag carries [N] when [N > 1], the infinite
    token ["-1"] when [N < 0], and is absent when [N = 1]. *)
Theorem mpg123_loop_and_device_arguments (w : World) (mp3_path : string)
    (device : option string) (N : Z) (s : State) :
  truthy (which w (clock s) "mpg123") = true ->
  let a := mkCmd (the (which w (clock s) "mpg123"))
                 (mpg123_args mp3_path device N) in
  hd_error (yielded (_backend_commands w mp3_path device N s)) = Some a /\
  exists flag,
    (device = None -> flag = []) /\
    (forall d, device = Some d -> d <> "" -> flag = ["-a"; d]) /\
    (1 < N -> args a = (flag ++ ["--loop"; str N; mp3_path])%list) /\
    (N < 0 -> args a = (flag ++ ["--loop"; "-1"; mp3_path])%list) /\
    (N = 1 -> args a = (flag ++ [mp3_path])%list).
Proof.
  intros Ha a. split.
  - unfold yielded. rewrite backend_commands_run. cbn [fst].
    rewrite Ha. reflexivity.
  - destruct (mpg123_args_split mp3_path device N)
      as (flag & E & Hnone & _ & Hsome).
    exists flag. unfold a. cbn [args]. rewrite E.
    split; [exact Hnone |]. split; [exact Hsome |].
    repeat split; intros HN.
    + destruct (Z.ltb_spec N 0); [lia |].
      destruct (Z.gtb_spec N 1); [reflexivity | lia].
    + destruct (Z.ltb_spec N 0); [reflexivity | lia].
    + subst N. reflexivity.
Qed.

Lemma mpg123_loop_and_device_arguments_witness :
  hd_error (yielded (_backend_commands quiet_host "/home/pi/track1.mp3"
                       (Some "hw:1,0") 3 initial)) =
  Some (mkCmd "/usr/bin/mpg123"
          ["-a"; "hw:1,0"; "--loop"; "3"; "/home/pi/track1.mp3"]).
Proof.
  exact (proj1 (mpg123_loop_and_device_arguments quiet_host
                  "/home/pi/track1.mp3" (Some "hw:1,0") 3 initial eq_refl)).
Defined.

Lemma bind_ext {A B} (m : M A) (k1 k2 : A -> M B) (s : State) :
  (forall x s', k1 x s' = k2 x s') -> bind m k1 s = bind m k2 s.
Proof.
  intros H. unfold bind. destruct (m s) as [[x | e |] s']; auto.
Qed.

(** The candidate loop reads the request only for its dry-run flag. *)
Lemma attempt_reads_dry_run (w : World) (fuel : nat) (a a' : Args)
    (cmd : Cmd) :
  dry_run a = dry_run a' -> attempt w fuel a cmd = attempt w fuel a' cmd.
Proof. intros H. unfold attempt. now rewrite H. Qed.

Lemma try_candidates_reads_dry_run (w : World) (fuel : nat) (a a' : Args)
    (candidates : list Cmd) :
  dry_run a = dry_run a' ->
  forall s, try_candidates w fuel a candidates s =
            try_candidates w fuel a' candidates s.
Proof.
  intros H. induction candidates as [| cmd rest IH]; intros s.
  - reflexivity.
  - cbn [try_candidates]. rewrite (attempt_reads_dry_run w fuel a a' cmd H).
    apply bind_ext. intros [| status] s'; [apply IH | reflexivity].
Qed.

Lemma str_is_not_device_flag (n : Z) : str n <> "-a".
Proof.
  intros H. pose proof (int_of_str_str n) as E. rewrite H in E.
  discriminate E.
Qed.

(** C9. An empty [--device] string is handled as an absent one: the
    generator yields the same candidates, so mpg123 gets no [-a] flag and
    the pipeline descriptor carries ["default"]; and [main] as a whole
    does the same in both cases. *)
Theorem empty_device_is_no_device (w : World) (fuel : nat) (a : Args)
    (mp3_path : string) (n : Z) (s : State) :
  _backend_commands w mp3_path (Some "") n s =
    _backend_commands w mp3_path None n s /\
  (forall x, In x (removelast (mpg123_args mp3_path (Some "") n)) ->
             x <> "-a") /\
  pipeline_cmd mp3_path (Some "") n =
    mkCmd ffmpeg_aplay [mp3_path; "default"; str n] /\
  main w fuel (with_device a (Some "")) s =
    main w fuel (with_device a None) s.
Proof.
  split; [reflexivity |]. split; [| split; [reflexivity |]].
  - unfold mpg123_args. cbn [truthy truthy_str app].
    intros x Hx.
    destruct (n <? 0); [| destruct (n >? 1)]; cbn in Hx;
      repeat (destruct Hx as [<- | Hx]); try discriminate;
      try contradiction.
    apply str_is_not_device_flag.
  - unfold main. cbn [with_device file device loops list_devices].
    apply bind_ext; intros present s1.
    destruct (negb present); [reflexivity |].
    apply bind_ext; intros aplay_l s2.
    apply bind_ext; intros aplay_L s3.
    destruct (list_devices a); [reflexivity |].
    apply bind_ext; intros pi s4.
    apply bind_ext; intros _ s5.
    apply bind_ext; intros cands s6.
    destruct cands; [reflexivity |].
    now apply try_candidates_reads_dry_run.
Qed.

(** ** The pipeline *)

(** The pipeline up to and including its decode step, when both of its
    tools are located. *)
Lemma pipeline_decode_step (w : World) (fuel : nat) (mp3_path dev : string)
    (n : Z) (s : State) :
  let t := clock s in
  let ffmpeg := the (which w t "ffmpeg") in
  let aplay := the (which w (S t) "aplay") in
  let td := mkdtemp w (S (S t)) in
  let wav := td ++ "/decoded.wav" in
  let s3 := mkState (S (S (S (S t))))
              (trace s ++ [EvWhich "ffmpeg"; EvWhich "aplay"; EvMkTemp td;
                           EvRun (decode_argv ffmpeg mp3_path wav)]) in
  truthy (which w t "ffmpeg") = true ->
  truthy (which w (S t) "aplay") = true ->
  _run_ffmpeg_to_wav_then_aplay w fuel mp3_path dev n s =
  match spawn w (S (S (S t))) (decode_argv ffmpeg mp3_path wav) with
  | LaunchError e =>
      (Exn e, mkState (clock s3) (trace s3 ++ [EvRmTemp td]))
  | Exited rc1 _ =>
      if negb (rc1 =? 0)
      then (Val rc1, mkState (clock s3) (trace s3 ++ [EvRmTemp td]))
      else
        match (if n <? 0 then play_forever w fuel (play_argv aplay dev wav)
               else play_times w (Z.to_nat (Z.max 1 n))
                      (play_argv aplay dev wav)) s3 with
        | (Hang, s4) => (Hang, s4)
        | (r, s4) => (r, mkState (clock s4) (trace s4 ++ [EvRmTemp td]))
        end
  end.
Proof.
  intros t ffmpeg aplay td wav s3 Hf Ha.
  unfold _run_ffmpeg_to_wav_then_aplay, bind at 1 2, _which.
  unfold ask at 1 2. cbn [clock trace].
  fold t. rewrite Hf, Ha. cbn [negb orb].
  unfold with_tempdir. cbn [clock trace].
  fold t td wav ffmpeg aplay.
  unfold bind at 1, subprocess_run at 1, bind at 1, ask at 1.
  cbn [clock trace]. rewrite <- !app_assoc. cbn [app].
  fold s3.
  destruct (spawn w (S (S (S t))) (decode_argv ffmpeg mp3_path wav))
    as [rc1 out | e]; cbn [ret raise].
  - destruct (negb (rc1 =? 0)); reflexivity.
  - reflexivity.
Qed.

(** One round of play after a successful decode: [range(max(1, n))] has
    one element for [n = 0] as for [n = 1]. *)
Lemma play_once (w : World) (argv : list string) (s : State) :
  play_times w 1 argv s =
  match spawn w (clock s) argv with
  | Exited rc _ => (Val rc, mkState (S (clock s)) (trace s ++ [EvRun argv]))
  | LaunchError e =>
      (Exn e, mkState (S (clock s)) (trace s ++ [EvRun argv]))
  end.
Proof.
  cbn [play_times]. unfold bind, subprocess_run, bind, ask, ret, raise.
  destruct (spawn w (clock s) argv) as [rc out | e]; [| reflexivity].
  destruct (Z.eqb_spec rc 0) as [-> | Hrc]; reflexivity.
Qed.



(** The scenario of the specification: only ffmpeg and aplay are
    installed and the decoder exits with status 5. *)
Example only_pipeline_decoder_exits_5 :
  main broken_decoder_host 0 play_request initial =
  (Val 5,
   mkState 14
     [EvExists "/home/pi/track1.mp3";
      EvWhich "aplay"; EvCapture ["/usr/bin/aplay"; "-l"];
      EvWhich "aplay"; EvCapture ["/usr/bin/aplay"; "-L"];
      EvReadText "/proc/device-tree/model";
      EvWhich "mpg123"; EvWhich "ffplay"; EvWhich "ffmpeg"; EvWhich "aplay";
      EvPrint Stdout (UsingPipeline "default");
      EvWhich "ffmpeg"; EvWhich "aplay";
      EvMkTemp "/tmp/pcm5100_test_k3x9";
      EvRun (decode_argv "/usr/bin/ffmpeg" "/home/pi/track1.mp3"
               "/tmp/pcm5100_test_k3x9/decoded.wav");
      EvRmTemp "/tmp/pcm5100_test_k3x9"]).
Proof. reflexivity. Qed.

(** C10. A loop count of 0 is handled as a loop count of 1: mpg123 and
    ffplay get no loop flag, the pipeline does the same as for 1 -- after
    a successful decode it plays the file once and returns that status --
    and [main] as a whole does the same for both counts. *)
Theorem loop_count_zero_is_one (w : World) (fuel : nat) (a : Args)
    (mp3_path : string) (dev : option string) (d : string) (s : State) :
  mpg123_args mp3_path dev 0 =
    ((if truthy dev then ["-a"; the dev] else []) ++ [mp3_path])%list /\
  mpg123_args mp3_path dev 0 = mpg123_args mp3_path dev 1 /\
  ffplay_args mp3_path 0 =
    ["-nodisp"; "-autoexit"; "-loglevel"; "error"; mp3_path] /\
  ffplay_args mp3_path 0 = ffplay_args mp3_path 1 /\
  _run_ffmpeg_to_wav_then_aplay w fuel mp3_path d 0 s =
    _run_ffmpeg_to_wav_then_aplay w fuel mp3_path d 1 s /\
  main w fuel (with_loops a 0) s = main w fuel (with_loops a 1) s /\
  (let t := clock s in
   let ffmpeg := the (which w t "ffmpeg") in
   let aplay := the (which w (S t) "aplay") in
   let td := mkdtemp w (S (S t)) in
   let wav := td ++ "/decoded.wav" in
   forall out1 rc out2,
     truthy (which w t "ffmpeg") = true ->
     truthy (which w (S t) "aplay") = true ->
     spawn w (S (S (S t))) (decode_argv ffmpeg mp3_path wav) =
       Exited 0 out1 ->
     spawn w (S (S (S (S t)))) (play_argv aplay d wav) = Exited rc out2 ->
     _run_ffmpeg_to_wav_then_aplay w fuel mp3_path d 0 s =
       (Val rc,
        mkState (S (S (S (S (S t)))))
          (trace s ++
           [EvWhich "ffmpeg"; EvWhich "aplay"; EvMkTemp td;
            EvRun (decode_argv ffmpeg mp3_path wav);
            EvRun (play_argv aplay d wav);
            EvRmTemp td]))).
Proof.
  repeat (split; [reflexivity |]).
  split.
  - unfold main.
    cbn [with_loops file device loops list_devices].
    apply bind_ext; intros present s1.
    destruct (negb present); [reflexivity |].
    apply bind_ext; intros aplay_l s2.
    apply bind_ext; intros aplay_L s3.
    destruct (list_devices a); [reflexivity |].
    apply bind_ext; intros pi s4.
    apply bind_ext; intros _ s5.
    unfold bind at 1 3. rewrite !backend_commands_run.
    change (mpg123_args (resolve w (file a)) (device a) 1)
      with (mpg123_args (resolve w (file a)) (device a) 0).
    change (ffplay_args (resolve w (file a)) 1)
      with (ffplay_args (resolve w (file a)) 0).
    set (ya := if truthy (which w (clock s5) "mpg123") then _ else _).
    set (yb := if truthy (which w (S (clock s5)) "ffplay") then _ else _).
    set (s6 := mkState _ _).
    assert (L : forall (l : list Cmd) s',
      try_candidates w fuel (with_loops a 0)
        (l ++ [pipeline_cmd (resolve w (file a)) (device a) 0]) s' =
      try_candidates w fuel (with_loops a 1)
        (l ++ [pipeline_cmd (resolve w (file a)) (device a) 1]) s').
    { induction l as [| c l IH]; intros s'.
      - reflexivity.
      - rewrite <- !app_comm_cons. cbn [try_candidates].
        rewrite (attempt_reads_dry_run w fuel (with_loops a 0)
                   (with_loops a 1) c eq_refl).
        apply bind_ext. intros [| status] s''; [apply IH | reflexivity]. }
    destruct (truthy (which w (S (S (clock s5))) "ffmpeg") &&
              truthy (which w (S (S (S (clock s5)))) "aplay")).
    + rewrite !app_assoc. specialize (L (ya ++ yb)%list s6).
      destruct ((ya ++ yb)%list) as [| c l] eqn:E; exact L.
    + rewrite !app_nil_r.
      destruct ((ya ++ yb)%list) as [| c l]; [reflexivity |].
      now apply try_candidates_reads_dry_run.
  - intros t ffmpeg aplay td wav out1 rc out2 Hf Ha Hdec Hplay.
    rewrite pipeline_decode_step by assumption.
    fold t ffmpeg aplay td wav. rewrite Hdec.
    cbn [Z.eqb negb Z.ltb Z.compare Z.max Z.to_nat Pos.to_nat Pos.iter_op].
    rewrite play_once. cbn [clock trace]. rewrite Hplay.
    cbn [clock trace]. rewrite <- !app_assoc. reflexivity.
Qed.

Lemma loop_count_zero_is_one_witness :
  _run_ffmpeg_to_wav_then_aplay quiet_host 0 "/home/pi/track1.mp3"
    "default" 0 initial =
  (Val 0,
   mkState 5
     [EvWhich "ffmpeg"; EvWhich "aplay";
      EvMkTemp "/tmp/pcm5100_test_k3x9";
      EvRun (decode_argv "/usr/bin/ffmpeg" "/home/pi/track1.mp3"
               "/tmp/pcm5100_test_k3x9/decoded.wav");
      EvRun ["/usr/bin/aplay"; "/tmp/pcm5100_test_k3x9/decoded.wav"];
      EvRmTemp "/tmp/pcm5100_test_k3x9"]).
Proof.
  apply (proj2 (proj2 (proj2 (proj2 (proj2 (proj2
    (loop_count_zero_is_one quiet_host 0 play_request
       "/home/pi/track1.mp3" None "default" initial)))))) "" 0 "");
    reflexivity.
Defined.

(** ** The candidate loop *)

(** One round of the loop on a simple backend, by what its child did. *)
Lemma attempt_simple (w : World) (fuel : nat) (a : Args) (cmd : Cmd)
    (s : State) :
  dry_run a = false ->
  simple cmd = true ->
  attempt w fuel a cmd s =
  match spawn w (clock s) (as_list cmd) with
  | Exited rc _ =>
      if rc =? 0 then (Val (Return 0), launched cmd s)
      else (Val Next, reported rc (launched cmd s))
  | LaunchError FileNotFoundError => (Val Next, launched cmd s)
  | LaunchError e => (Exn e, launched cmd s)
  end.
Proof.
  intros Hdry Hs. unfold simple in Hs. apply negb_true_iff in Hs.
  unfold attempt. rewrite Hs, Hdry.
  unfold bind at 1 2, print, emit. cbn [clock trace].
  unfold subprocess_run, bind, ask. cbn [clock trace].
  unfold launched, reported. rewrite <- !app_assoc. cbn [app].
  destruct (spawn w (clock s) (as_list cmd)) as [rc out | e];
    cbn [ret raise]; [| destruct e; reflexivity].
  destruct (rc =? 0); [reflexivity |].
  unfold bind, print, emit, ret. cbn [clock trace].
  rewrite <- !app_assoc. reflexivity.
Qed.

(** One round of the loop on a pipeline descriptor. *)
Lemma attempt_pipeline (w : World) (fuel : nat) (a : Args)
    (mp3_arg device_arg loops_arg : string) (n : Z) (s : State) :
  dry_run a = false ->
  int_of_str loops_arg = Some n ->
  attempt w fuel a (mkCmd ffmpeg_aplay [mp3_arg; device_arg; loops_arg]) s =
  match _run_ffmpeg_to_wav_then_aplay w fuel mp3_arg device_arg n
          (pipeline_announced device_arg s) with
  | (Val rc, s') => (Val (Return rc), s')
  | (Exn e, s') => (Exn e, s')
  | (Hang, s') => (Hang, s')
  end.
Proof.
  intros Hdry Hn. unfold attempt. cbn [exe args].
  change (String.eqb ffmpeg_aplay ffmpeg_aplay) with true. cbn iota.
  rewrite Hdry, Hn. unfold bind at 1, print, emit.
  fold (pipeline_announced device_arg s).
  unfold bind, ret.
  destruct (_run_ffmpeg_to_wav_then_aplay w fuel mp3_arg device_arg n
              (pipeline_announced device_arg s)) as [[rc | e |] s'];
    reflexivity.
Qed.

(** A located tool gives a simple invocation. *)
Lemma located_is_simple (tools : string -> option string) (name : string)
    (argv : list string) :
  no_sentinel_path tools -> found tools name = true ->
  simple (mkCmd (the (tools name)) argv) = true.
Proof.
  intros Hsane Hfound. unfold simple. cbn [exe].
  apply negb_true_iff. apply String.eqb_neq. intros E.
  apply (Hsane name). unfold found in Hfound.
  destruct (tools name) as [p |]; [| discriminate Hfound].
  cbn [the] in E. now subst p.
Qed.

(** The lists the generator yields have the pipeline descriptor, if any,
    in last place. *)
Lemma generated_pipeline_last (w : World) (tools : string -> option string)
    (mp3_path : string) (dev : option string) (n : Z) (s : State) :
  tools_fixed w tools -> no_sentinel_path tools ->
  pipeline_last (yielded (_backend_commands w mp3_path dev n s)) = true.
Proof.
  intros Hfix Hsane. unfold yielded.
  rewrite (backend_commands_fixed w tools) by exact Hfix. cbn [fst].
  unfold preference. cbn [filter].
  assert (HA : available tools BackendA = true ->
    simple (descriptor tools mp3_path dev n BackendA) = true).
  { intros H. apply located_is_simple; [exact Hsane |].
    unfold available in H. cbn in H. now rewrite andb_true_r in H. }
  assert (HB : available tools BackendB = true ->
    simple (descriptor tools mp3_path dev n BackendB) = true).
  { intros H. apply located_is_simple; [exact Hsane |].
    unfold available in H. cbn in H. now rewrite andb_true_r in H. }
  destruct (available tools BackendA), (available tools BackendB),
    (available tools BackendC); cbn [map pipeline_last];
    rewrite ?HA, ?HB by reflexivity; reflexivity.
Qed.

(** The loop on a list whose candidates all failed in their turn. *)
Lemma each_failed_returns (w : World) (fuel : nat) (a : Args)
    (candidates : list Cmd) (s : State) :
  dry_run a = false ->
  each_failed w fuel candidates s ->
  exists rc s',
    try_candidates w fuel a candidates s = (Val rc, s') /\
    rc <> 0 /\
    (forallb simple candidates = true -> rc = 1).
Proof.
  intros Hdry Hfailed.
  induction Hfailed as
    [s | cmd rest s k out Hs Hrun Hk _ IH | cmd rest s Hs Hrun _ IH
     | m d l n s s' k Hn Hrun Hk].
  - eexists 1, _. repeat split. discriminate.
  - destruct IH as (rc & s' & E & Hrc & Hone).
    exists rc, s'. repeat split; [| exact Hrc |].
    + cbn [try_candidates]. unfold bind at 1.
      rewrite attempt_simple, Hrun by assumption.
      destruct (Z.eqb_spec k 0); [contradiction | exact E].
    + intros H. cbn [forallb] in H. apply andb_prop in H as [_ H].
      now apply Hone.
  - destruct IH as (rc & s' & E & Hrc & Hone).
    exists rc, s'. repeat split; [| exact Hrc |].
    + cbn [try_candidates]. unfold bind at 1.
      rewrite attempt_simple, Hrun by assumption. exact E.
    + intros H. cbn [forallb] in H. apply andb_prop in H as [_ H].
      now apply Hone.
  - exists k, s'. repeat split; [| exact Hk | discriminate].
    cbn [try_candidates]. unfold bind at 1.
    rewrite (attempt_pipeline w fuel a m d l n s Hdry Hn), Hrun.
    reflexivity.
Qed.

(** C1, as the code has it. Outside dry-run mode the candidate loop falls
    back: a simple backend whose child exits non-zero, or whose launch
    raises [FileNotFoundError], is followed by the remaining candidates,
    however many there are; a launch that raises any other error ends the
    loop in that uncaught exception, the remaining candidates untried; the
    loop returns 0 as soon as the execution of a candidate returns 0; when
    the list is exhausted it prints "all backends failed" and returns 1;
    when it returns 1 on a list as the generator builds them (pipeline
    last), every candidate was executed and each of them failed; and when
    every candidate was executed and failed it returns a non-zero status,
    which is 1 if all of them were simple backends. *)
Theorem fallback_policy (w : World) (fuel : nat) (a : Args) :
  dry_run a = false ->
  (forall cmd rest s k out,
     simple cmd = true ->
     spawn w (clock s) (as_list cmd) = Exited k out -> k <> 0 ->
     try_candidates w fuel a (cmd :: rest) s =
       try_candidates w fuel a rest (reported k (launched cmd s))) /\
  (forall cmd rest s,
     simple cmd = true ->
     spawn w (clock s) (as_list cmd) = LaunchNotFound ->
     try_candidates w fuel a (cmd :: rest) s =
       try_candidates w fuel a rest (launched cmd s)) /\
  (forall cmd rest s e,
     simple cmd = true ->
     spawn w (clock s) (as_list cmd) = LaunchError e ->
     e <> FileNotFoundError ->
     try_candidates w fuel a (cmd :: rest) s = (Exn e, launched cmd s)) /\
  (forall cmd rest s out,
     simple cmd = true ->
     spawn w (clock s) (as_list cmd) = Exited 0 out ->
     try_candidates w fuel a (cmd :: rest) s = (Val 0, launched cmd s)) /\
  (forall mp3_arg device_arg n rest s s',
     _run_ffmpeg_to_wav_then_aplay w fuel mp3_arg device_arg n
       (pipeline_announced device_arg s) = (Val 0, s') ->
     try_candidates w fuel a
       (mkCmd ffmpeg_aplay [mp3_arg; device_arg; str n] :: rest) s =
       (Val 0, s')) /\
  (forall s,
     try_candidates w fuel a [] s =
       (Val 1, mkState (clock s) (trace s ++ [EvPrint Stderr AllFailed]))) /\
  (forall candidates s s',
     pipeline_last candidates = true ->
     try_candidates w fuel a candidates s = (Val 1, s') ->
     each_failed w fuel candidates s) /\
  (forall candidates s,
     each_failed w fuel candidates s ->
     exists rc s',
       try_candidates w fuel a candidates s = (Val rc, s') /\
       rc <> 0 /\
       (forallb simple candidates = true -> rc = 1)).
Proof.
  intros Hdry. repeat apply conj.
  - intros cmd rest s k out Hs Hrun Hk.
    cbn [try_candidates]. unfold bind at 1.
    rewrite attempt_simple, Hrun by assumption.
    destruct (Z.eqb_spec k 0); [contradiction | reflexivity].
  - intros cmd rest s Hs Hrun.
    cbn [try_candidates]. unfold bind at 1.
    rewrite attempt_simple, Hrun by assumption. reflexivity.
  - intros cmd rest s e Hs Hrun He.
    cbn [try_candidates]. unfold bind at 1.
    rewrite attempt_simple, Hrun by assumption.
    destruct e; [now elim He | reflexivity ..].
  - intros cmd rest s out Hs Hrun.
    cbn [try_candidates]. unfold bind at 1.
    rewrite attempt_simple, Hrun by assumption. reflexivity.
  - intros mp3_arg device_arg n rest s s' Hrun.
    cbn [try_candidates]. unfold bind at 1.
    rewrite (attempt_pipeline w fuel a mp3_arg device_arg (str n) n s Hdry
               (int_of_str_str n)), Hrun.
    reflexivity.
  - intros s. reflexivity.
  - intros candidates.
    induction candidates as [| cmd rest IH]; intros s s' Hlast Hrun.
    + constructor.
    + destruct (simple cmd) eqn:Hs.
      * assert (Hrest : pipeline_last rest = true).
        { cbn [pipeline_last] in Hlast. destruct rest; [reflexivity |].
          now apply andb_prop in Hlast. }
        cbn [try_candidates] in Hrun. unfold bind at 1 in Hrun.
        rewrite attempt_simple in Hrun by assumption.
        destruct (spawn w (clock s) (as_list cmd)) as [rc out | e] eqn:Hsp.
        -- destruct (Z.eqb_spec rc 0) as [-> | Hrc].
           ++ discriminate Hrun.
           ++ eapply simple_failed; eauto.
        -- destruct e; try discriminate Hrun.
           eapply simple_not_launched; eauto.
      * assert (rest = []) as ->.
        { cbn [pipeline_last] in Hlast. destruct rest; [reflexivity |].
          rewrite Hs in Hlast. discriminate Hlast. }
        unfold simple in Hs. apply negb_false_iff, String.eqb_eq in Hs.
        destruct cmd as [e l]. cbn [exe] in Hs. subst e.
        cbn [try_candidates] in Hrun. unfold bind at 1 in Hrun.
        destruct l as [| m [| d [| ln [| x l]]]];
          try (unfold attempt in Hrun; cbn in Hrun; discriminate Hrun).
        destruct (int_of_str ln) as [n |] eqn:Hn.
        -- rewrite (attempt_pipeline w fuel a m d ln n s Hdry Hn) in Hrun.
           destruct (_run_ffmpeg_to_wav_then_aplay w fuel m d n
                       (pipeline_announced d s)) as [[rc | e |] s1] eqn:Hp;
             try discriminate Hrun.
           cbn [ret] in Hrun. injection Hrun as -> ->.
           eapply pipeline_failed; eauto. discriminate.
        -- unfold attempt in Hrun. cbn [exe args] in Hrun.
           change (String.eqb ffmpeg_aplay ffmpeg_aplay) with true in Hrun.
           cbn iota in Hrun. rewrite Hdry, Hn in Hrun.
           discriminate Hrun.
  - intros candidates s. now apply each_failed_returns.
Qed.

Lemma fallback_policy_witness :
  let mpg123 := mkCmd "/usr/bin/mpg123" ["/home/pi/track1.mp3"] in
  let ffplay :=
    mkCmd "/usr/bin/ffplay"
      ["-nodisp"; "-autoexit"; "-loglevel"; "error"; "/home/pi/track1.mp3"]
  in
  try_candidates failing_mpg123_host 0 play_request [mpg123; ffplay] initial =
    try_candidates failing_mpg123_host 0 play_request [ffplay]
      (reported 1 (launched mpg123 initial)) /\
  try_candidates failing_mpg123_host 0 play_request [ffplay]
      (reported 1 (launched mpg123 initial)) =
    (Val 0, launched ffplay (reported 1 (launched mpg123 initial))).
Proof.
  intros mpg123 ffplay.
  destruct (fallback_policy failing_mpg123_host 0 play_request eq_refl)
    as (Hfail & _ & _ & Hok & _).
  split.
  - apply (Hfail mpg123 [ffplay] initial 1 ""); try reflexivity.
    discriminate.
  - apply (Hok ffplay [] (reported 1 (launched mpg123 initial)) "");
      reflexivity.
Defined.

(** C1, as stated, fails: a launch error other than [FileNotFoundError]
    does not make the loop advance.  mpg123 is located but may not be
    executed ([PermissionError]): the run ends in that uncaught exception
    and ffplay, the next candidate, is never tried. *)
Lemma launch_error_ends_the_run :
  dry_run play_request = false /\
  simple (mkCmd "/usr/bin/mpg123" ["/home/pi/track1.mp3"]) = true /\
  spawn unexecutable_mpg123_host 10
    ["/usr/bin/mpg123"; "/home/pi/track1.mp3"] =
    LaunchError PermissionError /\
  fst (_backend_commands unexecutable_mpg123_host "/home/pi/track1.mp3"
         None 1 initial) =
    Val [mkCmd "/usr/bin/mpg123" ["/home/pi/track1.mp3"];
         mkCmd "/usr/bin/ffplay"
           ["-nodisp"; "-autoexit"; "-loglevel"; "error";
            "/home/pi/track1.mp3"];
         pipeline_cmd "/home/pi/track1.mp3" None 1] /\
  main unexecutable_mpg123_host 0 play_request initial =
    (Exn PermissionError,
     mkState 11
       [EvExists "/home/pi/track1.mp3";
        EvWhich "aplay"; EvCapture ["/usr/bin/aplay"; "-l"];
        EvWhich "aplay"; EvCapture ["/usr/bin/aplay"; "-L"];
        EvReadText "/proc/device-tree/model";
        EvWhich "mpg123"; EvWhich "ffplay"; EvWhich "ffmpeg";
        EvWhich "aplay";
        EvPrint Stdout (UsingBackend "/usr/bin/mpg123");
        EvPrint Stdout
          (Running (mkCmd "/usr/bin/mpg123" ["/home/pi/track1.mp3"]));
        EvRun ["/usr/bin/mpg123"; "/home/pi/track1.mp3"]]).
Proof. repeat split. Qed.

(** The scenario of the specification: mpg123 is present but exits 1,
    ffplay is present and exits 0. *)
Example mpg123_fails_then_ffplay_plays :
  main failing_mpg123_host 0 play_request initial =
  (Val 0,
   mkState 12
     [EvExists "/home/pi/track1.mp3";
      EvWhich "aplay"; EvCapture ["/usr/bin/aplay"; "-l"];
      EvWhich "aplay"; EvCapture ["/usr/bin/aplay"; "-L"];
      EvReadText "/proc/device-tree/model";
      EvWhich "mpg123"; EvWhich "ffplay"; EvWhich "ffmpeg"; EvWhich "aplay";
      EvPrint Stdout (UsingBackend "/usr/bin/mpg123");
      EvPrint Stdout
        (Running (mkCmd "/usr/bin/mpg123" ["/home/pi/track1.mp3"]));
      EvRun ["/usr/bin/mpg123"; "/home/pi/track1.mp3"];
      EvPrint Stderr (BackendFailed 1);
      EvPrint Stdout (UsingBackend "/usr/bin/ffplay");
      EvPrint Stdout
        (Running
           (mkCmd "/usr/bin/ffplay"
              ["-nodisp"; "-autoexit"; "-loglevel"; "error";
               "/home/pi/track1.mp3"]));
      EvRun ["/usr/bin/ffplay"; "-nodisp"; "-autoexit"; "-loglevel";
             "error"; "/home/pi/track1.mp3"]]).
Proof. reflexivity. Qed.

(** ** Validation of the input file *)

Lemma added_app (s : State) (c : nat) (evs : list event) :
  added s (mkState c (trace s ++ evs)) = evs.
Proof.
  unfold added. cbn [trace].
  rewrite skipn_app, skipn_all, Nat.sub_diag. reflexivity.
Qed.

(** C8. When the resolved file does not exist, [main] returns 2 after the
    existence test and the diagnostic alone: no tool was looked up, no
    child process was run, so neither probing nor candidate generation
    took place. *)
Theorem missing_file_exits_2 (w : World) (fuel : nat) (a : Args)
    (s : State) :
  path_exists w (clock s) (resolve w (file a)) = false ->
  let mp3_path := resolve w (file a) in
  main w fuel a s =
    (Val 2,
     mkState (S (clock s))
       (trace s ++ [EvExists mp3_path;
                    EvPrint Stderr (FileNotFoundMsg mp3_path)])) /\
  existsb touches_tool (added s (snd (main w fuel a s))) = false.
Proof.
  intros Hmissing mp3_path.
  assert (E : main w fuel a s =
    (Val 2,
     mkState (S (clock s))
       (trace s ++ [EvExists mp3_path;
                    EvPrint Stderr (FileNotFoundMsg mp3_path)]))).
  { unfold main. fold mp3_path.
    unfold bind at 1, exists_, ask. fold mp3_path in Hmissing.
    rewrite Hmissing. cbn [negb].
    unfold bind, print, emit, ret. cbn [clock trace].
    rewrite <- app_assoc. reflexivity. }
  split; [exact E |].
  rewrite E. cbn [snd]. rewrite added_app. reflexivity.
Qed.

Lemma missing_file_exits_2_witness :
  main no_file_host 0 play_request initial =
  (Val 2,
   mkState 1
     [EvExists "/home/pi/track1.mp3";
      EvPrint Stderr (FileNotFoundMsg "/home/pi/track1.mp3")]).
Proof.
  exact (proj1 (missing_file_exits_2 no_file_host 0 play_request initial
                  eq_refl)).
Defined.

(** ** Composing runs *)

Lemma extends_refl (P : event -> Prop) (s : State) : extends P s s.
Proof. exists []. split; [now rewrite app_nil_r | constructor]. Qed.

Lemma extends_trans (P : event -> Prop) (s1 s2 s3 : State) :
  extends P s1 s2 -> extends P s2 s3 -> extends P s1 s3.
Proof.
  intros (l1 & E1 & F1) (l2 & E2 & F2). exists (l1 ++ l2)%list. split.
  - now rewrite E2, E1, app_assoc.
  - apply Forall_app. now split.
Qed.

Lemma extends_one (P : event -> Prop) (s : State) (c : nat) (ev : event) :
  P ev -> extends P s (mkState c (trace s ++ [ev])).
Proof. intros H. exists [ev]. split; [reflexivity | now constructor]. Qed.

Lemma extends_app (P : event -> Prop) (s : State) (c : nat)
    (evs : list event) :
  Forall P evs -> extends P s (mkState c (trace s ++ evs)).
Proof. intros H. exists evs. now split. Qed.

Lemma ends_ret {A} (P : event -> Prop) (Q : A -> Prop) (x : A) :
  Q x -> ends_in P Q (ret x).
Proof.
  intros H s. exists x, s. repeat split; [exact H | apply extends_refl].
Qed.

Lemma ends_bind {A B} (P : event -> Prop) (R : A -> Prop) (Q : B -> Prop)
    (m : M A) (k : A -> M B) :
  ends_in P R m -> (forall x, R x -> ends_in P Q (k x)) ->
  ends_in P Q (bind m k).
Proof.
  intros Hm Hk s. destruct (Hm s) as (x & s1 & E1 & R1 & X1).
  destruct (Hk x R1 s1) as (y & s2 & E2 & Q2 & X2).
  exists y, s2. unfold bind. rewrite E1. repeat split; auto.
  eapply extends_trans; eauto.
Qed.

Lemma ends_ask {A} (P : event -> Prop) (Q : A -> Prop) (ev : event)
    (answer : nat -> A) :
  P ev -> (forall t, Q (answer t)) -> ends_in P Q (ask ev answer).
Proof.
  intros Hev Hq s. eexists _, _. unfold ask. repeat split.
  - apply Hq.
  - now apply extends_one.
Qed.

Lemma ends_print (P : event -> Prop) (to : stream) (m : message) :
  P (EvPrint to m) -> ends_in P (fun _ => True) (print to m).
Proof.
  intros Hev s. eexists _, _. unfold print, emit. repeat split.
  now apply extends_one.
Qed.

Lemma ends_capture (w : World) (P : event -> Prop) (argv : list string) :
  children_launch w -> P (EvCapture argv) ->
  ends_in P (fun _ => True) (_run_capture w argv).
Proof.
  intros Hl Hev s. unfold _run_capture, bind, ask.
  destruct (spawn w (clock s) argv) as [rc out |] eqn:E.
  - eexists _, _. repeat split. now apply extends_one.
  - now apply Hl in E.
Qed.

(** ** Listing devices *)

(** One listing step ([_aplay_list_cards], [_aplay_list_pcms]) when its
    child, if there is one, can be launched. *)
Lemma aplay_list_run (w : World) (flag : string) (s : State) :
  children_launch w ->
  let aplay := which w (clock s) "aplay" in
  (aplay <- _which w "aplay" ;;
   if negb (truthy aplay) then ret ""
   else _run_capture w [the aplay; flag])%py s =
  (Val (listing_text w (S (clock s)) aplay flag),
   mkState (S (clock s) + listing_ticks aplay)
     (trace s ++ EvWhich "aplay" :: listing_events aplay flag)).
Proof.
  intros Hl aplay. unfold bind at 1, _which, ask at 1. fold aplay.
  unfold listing_text, listing_ticks, listing_events.
  destruct (truthy aplay); cbn [negb].
  - unfold _run_capture, bind, ask. cbn [clock trace].
    destruct (spawn w (S (clock s)) [the aplay; flag]) as [rc out | e] eqn:E.
    + unfold ret. rewrite <- app_assoc. cbn [app].
      now rewrite Nat.add_1_r.
    + now apply Hl in E.
  - unfold ret. now rewrite Nat.add_0_r.
Qed.

(** C6, as the code has it. With [--list-devices] set, the file present
    and children that can be launched, [main] returns 0 and its log is
    exactly: the test of the file, the lookup of aplay and -- if aplay
    was located -- the captured child [aplay -l], the same for
    [aplay -L], and the four printed lines; nothing is played and no
    backend is looked up.  With the file absent it returns 2, since the
    file is validated before the flag is looked at. *)
Theorem list_devices_exits_0_when_file_exists (w : World) (fuel : nat)
    (a : Args) (s : State) :
  list_devices a = true ->
  (path_exists w (clock s) (resolve w (file a)) = true ->
   children_launch w ->
   let t := clock s in
   let first := which w (S t) "aplay" in
   let t2 := (S (S t) + listing_ticks first)%nat in
   let second := which w t2 "aplay" in
   main w fuel a s =
     (Val 0,
      mkState (S t2 + listing_ticks second)
        (trace s ++
         [EvExists (resolve w (file a)); EvWhich "aplay"] ++
         listing_events first "-l" ++
         [EvWhich "aplay"] ++
         listing_events second "-L" ++
         [EvPrint Stdout (ListingHeader "aplay -l");
          EvPrint Stdout (ListingBody (listing_text w (S (S t)) first "-l"));
          EvPrint Stdout (ListingHeader "aplay -L");
          EvPrint Stdout
            (ListingBody (listing_text w (S t2) second "-L"))]))) /\
  (path_exists w (clock s) (resolve w (file a)) = false ->
   fst (main w fuel a s) = Val 2).
Proof.
  intros Hlist. split.
  - intros Hfile Hl t first t2 second.
    unfold main. unfold bind at 1, exists_, ask at 1.
    rewrite Hfile. cbn [negb].
    unfold _aplay_list_cards, _aplay_list_pcms.
    unfold bind at 1. rewrite (aplay_list_run w "-l") by exact Hl.
    cbn [clock trace]. fold t first.
    unfold bind at 1. rewrite (aplay_list_run w "-L") by exact Hl.
    cbn [clock trace]. fold t2 second.
    rewrite Hlist. unfold bind, print, emit, ret. cbn [clock trace].
    rewrite <- !app_assoc. reflexivity.
  - intros Hfile. unfold main. unfold bind at 1, exists_, ask.
    rewrite Hfile. reflexivity.
Qed.

Lemma list_devices_exits_0_when_file_exists_witness :
  main quiet_host 0 list_request initial =
  (Val 0,
   mkState 5
     [EvExists "/home/pi/track1.mp3";
      EvWhich "aplay"; EvCapture ["/usr/bin/aplay"; "-l"];
      EvWhich "aplay"; EvCapture ["/usr/bin/aplay"; "-L"];
      EvPrint Stdout (ListingHeader "aplay -l");
      EvPrint Stdout (ListingBody "");
      EvPrint Stdout (ListingHeader "aplay -L");
      EvPrint Stdout (ListingBody "")]).
Proof.
  apply (proj1 (list_devices_exits_0_when_file_exists quiet_host 0
                  list_request initial eq_refl)).
  - reflexivity.
  - intros t argv e. discriminate.
Defined.

(** C6, as stated, fails: with [--list-devices] set and the file absent,
    [main] returns 2. *)
Lemma list_devices_on_absent_file :
  list_devices list_request = true /\
  path_exists no_file_host 0 (resolve no_file_host (file list_request))
    = false /\
  main no_file_host 0 list_request initial =
    (Val 2,
     mkState 1
       [EvExists "/home/pi/track1.mp3";
        EvPrint Stderr (FileNotFoundMsg "/home/pi/track1.mp3")]).
Proof. repeat split. Qed.

(** When aplay is gone between its lookup and its launch, the listing
    raises and [main] ends in the uncaught exception. *)
Example listing_raises_when_aplay_vanishes :
  main vanishing_aplay_host 0 list_request initial =
  (Exn FileNotFoundError,
   mkState 3
     [EvExists "/home/pi/track1.mp3"; EvWhich "aplay";
      EvCapture ["/usr/bin/aplay"; "-l"]]).
Proof. reflexivity. Qed.

(** ** Runs on a fixed tool environment *)

Section FixedTools.

Variable w : World.
Variable tools : string -> option string.
Variable P : event -> Prop.

Hypothesis Hfix : tools_fixed w tools.
Hypothesis Hlaunch : children_launch w.
Hypothesis P_exists : forall p, P (EvExists p).
Hypothesis P_read : forall p, P (EvReadText p).
Hypothesis P_which : forall name, P (EvWhich name).
Hypothesis P_print : forall to m, P (EvPrint to m).
Hypothesis P_listing :
  forall flag, flag = "-l"%string \/ flag = "-L"%string ->
  P (EvCapture [the (tools "aplay"); flag]).

Lemma ends_listing (flag : string) :
  flag = "-l"%string \/ flag = "-L"%string ->
  ends_in P (fun _ : string => True)
    (aplay <- _which w "aplay" ;;
     if negb (truthy aplay) then ret ""
     else _run_capture w [the aplay; flag])%py.
Proof.
  intros Hflag.
  eapply ends_bind with (R := fun x => x = tools "aplay").
  - apply ends_ask; [apply P_which | intros t; apply Hfix].
  - intros aplay ->. destruct (negb (truthy (tools "aplay"))).
    + now apply ends_ret.
    + apply ends_capture; [exact Hlaunch | now apply P_listing].
Qed.

Lemma ends_is_raspberry_pi :
  ends_in P (fun _ : bool => True) (_is_raspberry_pi w).
Proof.
  unfold _is_raspberry_pi, _read_text_if_exists, exists_.
  eapply ends_bind with (R := fun _ => True);
    [apply ends_ask; [apply P_read | auto] |].
  intros model _. destruct (is_pi_model model); [now apply ends_ret |].
  destruct (_ || _); [| now apply ends_ret].
  eapply ends_bind with (R := fun _ => True);
    [apply ends_ask; [apply P_exists | auto] |].
  intros present _. destruct present; [| now apply ends_ret].
  eapply ends_bind with (R := fun _ => True);
    [apply ends_ask; [apply P_read | auto] |].
  intros m2 _. now apply ends_ret.
Qed.

Lemma ends_backend_commands (mp3_path : string) (dev : option string)
    (n : Z) :
  ends_in P
    (fun l => l = map (descriptor tools mp3_path dev n)
                    (filter (available tools) preference))
    (_backend_commands w mp3_path dev n).
Proof.
  intros s. eexists _, _.
  rewrite (backend_commands_fixed w tools) by exact Hfix.
  repeat split. apply extends_app. repeat constructor; apply P_which.
Qed.

(** What [main] does between the validation of the file and the
    candidate loop, when it is not asked to list the devices. *)
Lemma main_up_to_candidates (fuel : nat) (a : Args) (s : State) :
  path_exists w (clock s) (resolve w (file a)) = true ->
  list_devices a = false ->
  exists s1,
    extends P s s1 /\
    main w fuel a s =
    match map (descriptor tools (resolve w (file a)) (device a) (loops a))
              (filter (available tools) preference) with
    | [] => (print Stderr NoBackendFound ;; ret 127)%py s1
    | c :: l => try_candidates w fuel a (c :: l) s1
    end.
Proof.
  intros Hfile Hlist. unfold main.
  unfold bind at 1, exists_, ask at 1. rewrite Hfile, Hlist. cbn [negb].
  set (s0 := mkState _ _).
  assert (X0 : extends P s s0) by apply extends_one, P_exists.
  unfold _aplay_list_cards, _aplay_list_pcms.
  unfold bind at 1.
  destruct (ends_listing "-l" (or_introl eq_refl) s0)
    as (aplay_l & s1 & -> & _ & X1).
  unfold bind at 1.
  destruct (ends_listing "-L" (or_intror eq_refl) s1)
    as (aplay_L & s2 & -> & _ & X2).
  unfold bind at 1.
  destruct (ends_is_raspberry_pi s2) as (pi & s3 & -> & _ & X3).
  unfold bind at 1.
  assert (Hhint : ends_in P (fun _ : unit => True)
            (if pi && negb (_guess_pcm5100_card_present aplay_l aplay_L)
             then _print_i2s_setup_hint else ret tt)).
  { destruct (_ && _); [apply ends_print, P_print | now apply ends_ret]. }
  destruct (Hhint s3) as (u & s4 & -> & _ & X4).
  unfold bind at 1.
  destruct (ends_backend_commands (resolve w (file a)) (device a) (loops a)
              s4) as (l & s5 & -> & -> & X5).
  exists s5. split.
  - repeat (eapply extends_trans; [eassumption |]). apply extends_refl.
  - destruct (map _ _); reflexivity.
Qed.

End FixedTools.

(** ** Dry runs *)

Lemma first_candidate_dry_run (w : World) (fuel : nat) (a : Args)
    (tools : string -> option string) (mp3_path : string)
    (dev : option string) (n : Z) (b : backend) (rest : list Cmd)
    (P : event -> Prop) :
  dry_run a = true ->
  no_sentinel_path tools ->
  available tools b = true ->
  (forall to m, P (EvPrint to m)) ->
  ends_in P (fun rc => rc = 0)
    (try_candidates w fuel a (descriptor tools mp3_path dev n b :: rest)).
Proof.
  intros Hdry Hsane Hb Hprint.
  assert (Hsimple : forall cmd, simple cmd = true ->
    ends_in P (fun rc => rc = 0) (try_candidates w fuel a (cmd :: rest))).
  { intros cmd Hs. cbn [try_candidates]. unfold attempt.
    unfold simple in Hs. apply negb_true_iff in Hs. rewrite Hs, Hdry.
    eapply ends_bind with (R := fun r => r = Return 0).
    - eapply ends_bind; [apply ends_print, Hprint | intros _ _].
      eapply ends_bind; [apply ends_print, Hprint | intros _ _].
      now apply ends_ret.
    - intros r ->. now apply ends_ret. }
  destruct b; cbn [descriptor].
  - apply Hsimple, located_is_simple; [exact Hsane |].
    unfold available in Hb. cbn in Hb. now rewrite andb_true_r in Hb.
  - apply Hsimple, located_is_simple; [exact Hsane |].
    unfold available in Hb. cbn in Hb. now rewrite andb_true_r in Hb.
  - cbn [try_candidates]. unfold attempt, pipeline_cmd. cbn [exe args].
    change (String.eqb ffmpeg_aplay ffmpeg_aplay) with true. cbn iota.
    rewrite Hdry.
    eapply ends_bind with (R := fun r => r = Return 0).
    + eapply ends_bind; [apply ends_print, Hprint | intros _ _].
      eapply ends_bind; [apply ends_print, Hprint | intros _ _].
      now apply ends_ret.
    + intros r ->. now apply ends_ret.
Qed.

(** C7, as the code has it. With [--dry-run] set, the file present, a
    fixed tool environment with at least one backend available, and
    children that can be launched, [main] returns 0.  Its log begins with
    the test of the file and the two listing steps of the probe, each of
    which runs aplay as a child exactly when aplay is located; whatever
    follows starts no process and touches no temporary directory.  So the
    device listings are the only children of a dry run, and they run
    because the probe precedes the dry-run test. *)
Theorem dry_run_plays_nothing (w : World) (tools : string -> option string)
    (fuel : nat) (a : Args) (s : State) :
  dry_run a = true ->
  tools_fixed w tools ->
  no_sentinel_path tools ->
  (exists b, available tools b = true) ->
  path_exists w (clock s) (resolve w (file a)) = true ->
  children_launch w ->
  exists s' rest,
    main w fuel a s = (Val 0, s') /\
    trace s' =
      (trace s ++
       [EvExists (resolve w (file a)); EvWhich "aplay"] ++
       listing_events (tools "aplay") "-l" ++
       [EvWhich "aplay"] ++
       listing_events (tools "aplay") "-L" ++
       rest)%list /\
    Forall starts_nothing rest.
Proof.
  intros Hdry Hfix Hsane [b Hb] Hfile Hl.
  set (P := starts_nothing).
  assert (Hsome : exists b0 bs,
    filter (available tools) preference = b0 :: bs /\
    available tools b0 = true).
  { unfold preference. cbn [filter].
    destruct (available tools BackendA) eqn:EA; [eauto |].
    destruct (available tools BackendB) eqn:EB; [eauto |].
    destruct (available tools BackendC) eqn:EC; [eauto |].
    destruct b; congruence. }
  destruct Hsome as (b0 & bs & Efilter & Hb0).
  unfold main. unfold bind at 1, exists_, ask at 1.
  rewrite Hfile. cbn [negb].
  unfold _aplay_list_cards, _aplay_list_pcms.
  unfold bind at 1. rewrite (aplay_list_run w "-l") by exact Hl.
  cbn [clock trace]. rewrite Hfix.
  unfold bind at 1. rewrite (aplay_list_run w "-L") by exact Hl.
  cbn [clock trace]. rewrite Hfix.
  set (s2 := mkState _ _).
  match goal with
  | |- exists s' rest, ?m s2 = _ /\ _ =>
      assert (Hrest : ends_in P (fun rc => rc = 0) m)
  end.
  { destruct (list_devices a).
    - repeat (eapply ends_bind;
              [apply ends_print; exact I | intros _ _]).
      now apply ends_ret.
    - eapply ends_bind.
      { apply (ends_is_raspberry_pi w P); intros; exact I. }
      intros pi _.
      eapply ends_bind with (R := fun _ => True).
      + destruct (_ && _); [apply ends_print; exact I | now apply ends_ret].
      + intros _ _. eapply ends_bind.
        { apply (ends_backend_commands w tools P Hfix). intros; exact I. }
        intros l ->. rewrite Efilter. cbn [map].
        apply (first_candidate_dry_run w fuel a tools); auto.
        intros to m. exact I. }
  destruct (Hrest s2) as (rc & s' & E & -> & rest & T & F).
  exists s', rest. split; [exact E |]. split; [| exact F].
  rewrite T. unfold s2. cbn [trace].
  rewrite <- !app_assoc. reflexivity.
Qed.

Lemma dry_run_plays_nothing_witness :
  exists s' rest,
    main quiet_host 0 dry_request initial = (Val 0, s') /\
    trace s' =
      (trace initial ++
       [EvExists "/home/pi/track1.mp3"; EvWhich "aplay"] ++
       listing_events (all_tools "aplay") "-l" ++
       [EvWhich "aplay"] ++
       listing_events (all_tools "aplay") "-L" ++
       rest)%list /\
    Forall starts_nothing rest.
Proof.
  apply (dry_run_plays_nothing quiet_host all_tools 0 dry_request initial).
  - reflexivity.
  - intros t name. reflexivity.
  - intros name. unfold all_tools, in_usr_bin.
    destruct (existsb (String.eqb name) _); discriminate.
  - exists BackendA. reflexivity.
  - reflexivity.
  - intros t argv e. discriminate.
Defined.

(** C7, as stated, fails: a dry run on a host with aplay installed runs
    the two device listings as child processes before it returns 0. *)
Lemma dry_run_spawns_device_listings :
  dry_run dry_request = true /\
  path_exists quiet_host 0 (resolve quiet_host (file dry_request)) = true /\
  available all_tools BackendA = true /\
  main quiet_host 0 dry_request initial =
    (Val 0,
     mkState 10
       [EvExists "/home/pi/track1.mp3";
        EvWhich "aplay"; EvCapture ["/usr/bin/aplay"; "-l"];
        EvWhich "aplay"; EvCapture ["/usr/bin/aplay"; "-L"];
        EvReadText "/proc/device-tree/model";
        EvWhich "mpg123"; EvWhich "ffplay"; EvWhich "ffmpeg";
        EvWhich "aplay";
        EvPrint Stdout (UsingBackend "/usr/bin/mpg123");
        EvPrint Stdout
          (Running (mkCmd "/usr/bin/mpg123" ["/home/pi/track1.mp3"]))]) /\
  existsb is_child
    (trace (snd (main quiet_host 0 dry_request initial))) = true.
Proof. repeat split. Qed.

(** Why the children must be launchable: when aplay is gone between its
    lookup and its launch, a dry run ends in the uncaught exception of
    the first listing. *)
Example dry_run_raises_when_aplay_vanishes :
  main vanishing_aplay_host 0 dry_request initial =
  (Exn FileNotFoundError,
   mkState 3
     [EvExists "/home/pi/track1.mp3"; EvWhich "aplay";
      EvCapture ["/usr/bin/aplay"; "-l"]]).
Proof. reflexivity. Qed.

(** ** The play loops *)

Lemma subprocess_run_eq (w : World) (argv : list string) (s : State) :
  subprocess_run w argv s =
  match spawn w (clock s) argv with
  | Exited rc _ => (Val rc, mkState (S (clock s)) (trace s ++ [EvRun argv]))
  | LaunchError e =>
      (Exn e, mkState (S (clock s)) (trace s ++ [EvRun argv]))
  end.
Proof.
  unfold subprocess_run, bind, ask, ret, raise.
  destruct (spawn w (clock s) argv); reflexivity.
Qed.

(** The state after [n] more children with the argument vector [argv]. *)
Lemma played_state (s : State) (argv : list string) (n : nat) :
  mkState (S (clock s) + n)
    ((trace s ++ [EvRun argv]) ++ repeat (EvRun argv) n) =
  mkState (clock s + S n) (trace s ++ repeat (EvRun argv) (S n)).
Proof.
  rewrite <- app_assoc. cbn [app repeat]. f_equal. lia.
Qed.

Lemma play_times_all_succeed (w : World) (argv : list string) (n : nat) :
  forall s,
    (forall i, (i < n)%nat ->
       exists out, spawn w (clock s + i) argv = Exited 0 out) ->
    play_times w n argv s =
      (Val 0, mkState (clock s + n) (trace s ++ repeat (EvRun argv) n)).
Proof.
  induction n as [| n IH]; intros s H.
  - cbn [play_times repeat]. unfold ret.
    rewrite Nat.add_0_r, app_nil_r. now destruct s.
  - cbn [play_times]. unfold bind. rewrite subprocess_run_eq.
    destruct (H 0%nat) as [out E]; [lia |].
    rewrite Nat.add_0_r in E. rewrite E. cbn [Z.eqb negb].
    rewrite IH.
    + cbn [clock trace]. now rewrite played_state.
    + intros i Hi. cbn [clock].
      destruct (H (S i)) as [o Eo]; [lia |].
      exists o. now rewrite Nat.add_succ_r in Eo.
Qed.

Lemma play_times_first_failure (w : World) (argv : list string) (k : Z)
    (out : string) (j : nat) :
  forall n s,
    (j < n)%nat ->
    (forall i, (i < j)%nat ->
       exists o, spawn w (clock s + i) argv = Exited 0 o) ->
    spawn w (clock s + j) argv = Exited k out ->
    k <> 0 ->
    play_times w n argv s =
      (Val k,
       mkState (clock s + S j) (trace s ++ repeat (EvRun argv) (S j))).
Proof.
  induction j as [| j IH]; intros n s Hj Hok Hfail Hk;
    (destruct n as [| n]; [lia |]);
    cbn [play_times]; unfold bind; rewrite subprocess_run_eq.
  - rewrite Nat.add_0_r in Hfail. rewrite Hfail.
    destruct (Z.eqb_spec k 0) as [-> | _]; [now elim Hk |].
    cbn [negb]. unfold ret. cbn [repeat]. f_equal. f_equal. lia.
  - destruct (Hok 0%nat) as [o E]; [lia |].
    rewrite Nat.add_0_r in E. rewrite E. cbn [Z.eqb negb].
    rewrite (IH n); cbn [clock trace].
    + now rewrite played_state.
    + lia.
    + intros i Hi. destruct (Hok (S i)) as [o' E']; [lia |].
      exists o'. now rewrite Nat.add_succ_r in E'.
    + now rewrite Nat.add_succ_r in Hfail.
    + exact Hk.
Qed.

Lemma play_forever_first_failure (w : World) (argv : list string) (k : Z)
    (out : string) (j : nat) :
  forall fuel s,
    (j < fuel)%nat ->
    (forall i, (i < j)%nat ->
       exists o, spawn w (clock s + i) argv = Exited 0 o) ->
    spawn w (clock s + j) argv = Exited k out ->
    k <> 0 ->
    play_forever w fuel argv s =
      (Val k,
       mkState (clock s + S j) (trace s ++ repeat (EvRun argv) (S j))).
Proof.
  induction j as [| j IH]; intros n s Hj Hok Hfail Hk;
    (destruct n as [| n]; [lia |]);
    cbn [play_forever]; unfold bind; rewrite subprocess_run_eq.
  - rewrite Nat.add_0_r in Hfail. rewrite Hfail.
    destruct (Z.eqb_spec k 0) as [-> | _]; [now elim Hk |].
    cbn [negb]. unfold ret. cbn [repeat]. f_equal. f_equal. lia.
  - destruct (Hok 0%nat) as [o E]; [lia |].
    rewrite Nat.add_0_r in E. rewrite E. cbn [Z.eqb negb].
    rewrite (IH n); cbn [clock trace].
    + now rewrite played_state.
    + lia.
    + intros i Hi. destruct (Hok (S i)) as [o' E']; [lia |].
      exists o'. now rewrite Nat.add_succ_r in E'.
    + now rewrite Nat.add_succ_r in Hfail.
    + exact Hk.
Qed.

Lemma play_forever_hangs (w : World) (argv : list string) (fuel : nat) :
  forall s,
    (forall i, exists out, spawn w (clock s + i) argv = Exited 0 out) ->
    play_forever w fuel argv s =
      (Hang, mkState (clock s + fuel) (trace s ++ repeat (EvRun argv) fuel)).
Proof.
  induction fuel as [| fuel IH]; intros s H.
  - cbn [play_forever repeat]. unfold hang.
    rewrite Nat.add_0_r, app_nil_r. now destruct s.
  - cbn [play_forever]. unfold bind. rewrite subprocess_run_eq.
    destruct (H 0%nat) as [out E].
    rewrite Nat.add_0_r in E. rewrite E. cbn [Z.eqb negb].
    rewrite IH.
    + cbn [clock trace]. now rewrite played_state.
    + intros i. cbn [clock]. destruct (H (S i)) as [o Eo].
      exists o. now rewrite Nat.add_succ_r in Eo.
Qed.

Lemma play_forever_nonzero (w : World) (argv : list string) (fuel : nat) :
  forall s rc s', play_forever w fuel argv s = (Val rc, s') -> rc <> 0.
Proof.
  induction fuel as [| fuel IH]; intros s rc s' H.
  - discriminate H.
  - cbn [play_forever] in H. unfold bind in H.
    rewrite subprocess_run_eq in H.
    destruct (spawn w (clock s) argv) as [rc1 out |]; [| discriminate H].
    destruct (Z.eqb_spec rc1 0) as [-> | Hrc]; cbn [negb] in H.
    + now apply IH in H.
    + unfold ret in H. now injection H as <- _.
Qed.

(** The status the endless loop returns is the status of the last child
    it ran. *)
Lemma play_forever_last_child (w : World) (argv : list string)
    (fuel : nat) :
  forall s rc s',
    play_forever w fuel argv s = (Val rc, s') ->
    exists out runs,
      spawn w (pred (clock s')) argv = Exited rc out /\
      trace s' = (trace s ++ runs ++ [EvRun argv])%list /\
      Forall is_run runs.
Proof.
  induction fuel as [| fuel IH]; intros s rc s' H.
  - discriminate H.
  - cbn [play_forever] in H. unfold bind in H.
    rewrite subprocess_run_eq in H.
    destruct (spawn w (clock s) argv) as [rc1 out | e] eqn:E;
      [| discriminate H].
    destruct (Z.eqb_spec rc1 0) as [-> | Hrc]; cbn [negb] in H.
    + apply IH in H as (out' & runs & Hsp & T & F).
      exists out', (EvRun argv :: runs). repeat split.
      * exact Hsp.
      * rewrite T. cbn [trace]. now rewrite <- app_assoc.
      * constructor; [exact I | exact F].
    + unfold ret in H. injection H as <- <-.
      exists out, []. cbn [clock trace pred app]. now repeat split.
Qed.

(** The pipeline after its two lookups: 127 unless both tools were found,
    and the [with] block otherwise. *)
Lemma pipeline_located_or_127 (w : World) (fuel : nat)
    (mp3_path dev : string) (n : Z) (s : State) :
  _run_ffmpeg_to_wav_then_aplay w fuel mp3_path dev n s =
  let ffmpeg := which w (clock s) "ffmpeg" in
  let aplay := which w (S (clock s)) "aplay" in
  let s2 :=
    mkState (S (S (clock s)))
      ((trace s ++ [EvWhich "ffmpeg"]) ++ [EvWhich "aplay"]) in
  if negb (truthy ffmpeg) || negb (truthy aplay) then (Val 127, s2)
  else
    with_tempdir w (fun td =>
      let wav_path := td ++ "/decoded.wav" in
      rc1 <- subprocess_run w (decode_argv (the ffmpeg) mp3_path wav_path) ;;
      if negb (rc1 =? 0) then ret rc1
      else
        let argv := play_argv (the aplay) dev wav_path in
        if n <? 0 then play_forever w fuel argv
        else play_times w (Z.to_nat (Z.max 1 n)) argv)%py s2.
Proof.
  unfold _run_ffmpeg_to_wav_then_aplay, _which.
  unfold bind at 1 2. unfold ask. cbn [clock trace].
  destruct (negb (truthy (which w (clock s) "ffmpeg")) ||
            negb (truthy (which w (S (clock s)) "aplay"))); reflexivity.
Qed.

(** ** More on the pipeline *)

(** X1. For a loop count [n >= 0] the pipeline runs the player
    [max(1, n)] times when the decoder and every round of the player exit
    with 0: it then returns 0, the log holds the decoder, that many player
    runs and nothing else between the creation and the removal of the
    temporary directory. *)
Theorem pipeline_plays_every_round (w : World) (fuel : nat)
    (mp3_path dev : string) (n : Z) (s : State) (out1 : string) :
  let t := clock s in
  let ffmpeg := the (which w t "ffmpeg") in
  let aplay := the (which w (S t) "aplay") in
  let td := mkdtemp w (S (S t)) in
  let wav := td ++ "/decoded.wav" in
  let decode := decode_argv ffmpeg mp3_path wav in
  let play := play_argv aplay dev wav in
  let rounds := Z.to_nat (Z.max 1 n) in
  0 <= n ->
  truthy (which w t "ffmpeg") = true ->
  truthy (which w (S t) "aplay") = true ->
  spawn w (S (S (S t))) decode = Exited 0 out1 ->
  (forall i, (i < rounds)%nat ->
     exists out, spawn w (4 + t + i)%nat play = Exited 0 out) ->
  _run_ffmpeg_to_wav_then_aplay w fuel mp3_path dev n s =
    (Val 0,
     mkState (4 + t + rounds)
       (trace s ++
        [EvWhich "ffmpeg"; EvWhich "aplay"; EvMkTemp td; EvRun decode] ++
        repeat (EvRun play) rounds ++ [EvRmTemp td])).
Proof.
  intros t ffmpeg aplay td wav decode play rounds Hn Hf Ha Hdec Hplay.
  rewrite pipeline_decode_step by assumption.
  fold t ffmpeg aplay td wav decode play rounds. rewrite Hdec.
  cbn [Z.eqb negb].
  destruct (Z.ltb_spec n 0) as [Hneg | _]; [lia |].
  rewrite play_times_all_succeed by exact Hplay.
  cbn [clock trace]. rewrite <- !app_assoc. reflexivity.
Qed.

Lemma pipeline_plays_every_round_witness :
  _run_ffmpeg_to_wav_then_aplay quiet_host 0 "/home/pi/track1.mp3"
    "hw:1,0" 3 initial =
  (Val 0,
   mkState 7
     [EvWhich "ffmpeg"; EvWhich "aplay";
      EvMkTemp "/tmp/pcm5100_test_k3x9";
      EvRun (decode_argv "/usr/bin/ffmpeg" "/home/pi/track1.mp3"
               "/tmp/pcm5100_test_k3x9/decoded.wav");
      EvRun ["/usr/bin/aplay"; "-D"; "hw:1,0";
             "/tmp/pcm5100_test_k3x9/decoded.wav"];
      EvRun ["/usr/bin/aplay"; "-D"; "hw:1,0";
             "/tmp/pcm5100_test_k3x9/decoded.wav"];
      EvRun ["/usr/bin/aplay"; "-D"; "hw:1,0";
             "/tmp/pcm5100_test_k3x9/decoded.wav"];
      EvRmTemp "/tmp/pcm5100_test_k3x9"]).
Proof.
  apply (pipeline_plays_every_round quiet_host 0 "/home/pi/track1.mp3"
           "hw:1,0" 3 initial "").
  - discriminate.
  - reflexivity.
  - reflexivity.
  - reflexivity.
  - intros i _. exists "". reflexivity.
Defined.

(** X2. For a loop count [n >= 0] the pipeline stops at the first round
    of the player that exits non-zero: it returns that status, no further
    round is run, and the temporary directory is removed. *)
Theorem pipeline_stops_at_first_failed_round (w : World) (fuel : nat)
    (mp3_path dev : string) (n : Z) (s : State) (out1 out : string)
    (j : nat) (k : Z) :
  let t := clock s in
  let ffmpeg := the (which w t "ffmpeg") in
  let aplay := the (which w (S t) "aplay") in
  let td := mkdtemp w (S (S t)) in
  let wav := td ++ "/decoded.wav" in
  let decode := decode_argv ffmpeg mp3_path wav in
  let play := play_argv aplay dev wav in
  0 <= n ->
  (j < Z.to_nat (Z.max 1 n))%nat ->
  truthy (which w t "ffmpeg") = true ->
  truthy (which w (S t) "aplay") = true ->
  spawn w (S (S (S t))) decode = Exited 0 out1 ->
  (forall i, (i < j)%nat ->
     exists o, spawn w (4 + t + i)%nat play = Exited 0 o) ->
  spawn w (4 + t + j)%nat play = Exited k out ->
  k <> 0 ->
  _run_ffmpeg_to_wav_then_aplay w fuel mp3_path dev n s =
    (Val k,
     mkState (4 + t + S j)
       (trace s ++
        [EvWhich "ffmpeg"; EvWhich "aplay"; EvMkTemp td; EvRun decode] ++
        repeat (EvRun play) (S j) ++ [EvRmTemp td])).
Proof.
  intros t ffmpeg aplay td wav decode play Hn Hj Hf Ha Hdec Hok Hfail Hk.
  rewrite pipeline_decode_step by assumption.
  fold t ffmpeg aplay td wav decode play. rewrite Hdec.
  cbn [Z.eqb negb].
  destruct (Z.ltb_spec n 0) as [Hneg | _]; [lia |].
  rewrite (play_times_first_failure w play k out j) by assumption.
  cbn [clock trace]. rewrite <- !app_assoc. reflexivity.
Qed.

Lemma pipeline_stops_at_first_failed_round_witness :
  _run_ffmpeg_to_wav_then_aplay (children_fail_from 5 3) 0
    "/home/pi/track1.mp3" "default" 4 initial =
  (Val 3,
   mkState 6
     [EvWhich "ffmpeg"; EvWhich "aplay";
      EvMkTemp "/tmp/pcm5100_test_k3x9";
      EvRun (decode_argv "/usr/bin/ffmpeg" "/home/pi/track1.mp3"
               "/tmp/pcm5100_test_k3x9/decoded.wav");
      EvRun ["/usr/bin/aplay"; "/tmp/pcm5100_test_k3x9/decoded.wav"];
      EvRun ["/usr/bin/aplay"; "/tmp/pcm5100_test_k3x9/decoded.wav"];
      EvRmTemp "/tmp/pcm5100_test_k3x9"]).
Proof.
  apply (pipeline_stops_at_first_failed_round (children_fail_from 5 3) 0
           "/home/pi/track1.mp3" "default" 4 initial "" "" 1 3).
  - discriminate.
  - cbn. lia.
  - reflexivity.
  - reflexivity.
  - reflexivity.
  - intros i Hi. exists "". destruct i as [| i]; [reflexivity | lia].
  - reflexivity.
  - discriminate.
Defined.

(** X3. For a negative loop count the pipeline repeats the player until a
    round exits non-zero: if round [j] is the first to do so, every run
    with more than [j] units of fuel returns that status after [j + 1]
    rounds and removes the temporary directory. *)
Theorem pipeline_loops_until_failure (w : World) (fuel : nat)
    (mp3_path dev : string) (n : Z) (s : State) (out1 out : string)
    (j : nat) (k : Z) :
  let t := clock s in
  let ffmpeg := the (which w t "ffmpeg") in
  let aplay := the (which w (S t) "aplay") in
  let td := mkdtemp w (S (S t)) in
  let wav := td ++ "/decoded.wav" in
  let decode := decode_argv ffmpeg mp3_path wav in
  let play := play_argv aplay dev wav in
  n < 0 ->
  (j < fuel)%nat ->
  truthy (which w t "ffmpeg") = true ->
  truthy (which w (S t) "aplay") = true ->
  spawn w (S (S (S t))) decode = Exited 0 out1 ->
  (forall i, (i < j)%nat ->
     exists o, spawn w (4 + t + i)%nat play = Exited 0 o) ->
  spawn w (4 + t + j)%nat play = Exited k out ->
  k <> 0 ->
  _run_ffmpeg_to_wav_then_aplay w fuel mp3_path dev n s =
    (Val k,
     mkState (4 + t + S j)
       (trace s ++
        [EvWhich "ffmpeg"; EvWhich "aplay"; EvMkTemp td; EvRun decode] ++
        repeat (EvRun play) (S j) ++ [EvRmTemp td])).
Proof.
  intros t ffmpeg aplay td wav decode play Hn Hj Hf Ha Hdec Hok Hfail Hk.
  rewrite pipeline_decode_step by assumption.
  fold t ffmpeg aplay td wav decode play. rewrite Hdec.
  cbn [Z.eqb negb].
  destruct (Z.ltb_spec n 0) as [_ | Hpos]; [| lia].
  rewrite (play_forever_first_failure w play k out j) by assumption.
  cbn [clock trace]. rewrite <- !app_assoc. reflexivity.
Qed.

Lemma pipeline_loops_until_failure_witness :
  _run_ffmpeg_to_wav_then_aplay (children_fail_from 6 7) 10
    "/home/pi/track1.mp3" "default" (-1) initial =
  (Val 7,
   mkState 7
     [EvWhich "ffmpeg"; EvWhich "aplay";
      EvMkTemp "/tmp/pcm5100_test_k3x9";
      EvRun (decode_argv "/usr/bin/ffmpeg" "/home/pi/track1.mp3"
               "/tmp/pcm5100_test_k3x9/decoded.wav");
      EvRun ["/usr/bin/aplay"; "/tmp/pcm5100_test_k3x9/decoded.wav"];
      EvRun ["/usr/bin/aplay"; "/tmp/pcm5100_test_k3x9/decoded.wav"];
      EvRun ["/usr/bin/aplay"; "/tmp/pcm5100_test_k3x9/decoded.wav"];
      EvRmTemp "/tmp/pcm5100_test_k3x9"]).
Proof.
  apply (pipeline_loops_until_failure (children_fail_from 6 7) 10
           "/home/pi/track1.mp3" "default" (-1) initial "" "" 2 7).
  - reflexivity.
  - lia.
  - reflexivity.
  - reflexivity.
  - reflexivity.
  - intros i Hi. exists "".
    destruct i as [| [| i]]; [reflexivity | reflexivity | lia].
  - reflexivity.
  - discriminate.
Defined.

(** X4. For a negative loop count the pipeline never returns 0, and a
    status it returns is never made up: either it is the 127 of missing
    tools, returned after the two lookups alone, or it is the non-zero
    status of the last child the pipeline ran -- the decoder or a round of
    the player -- and the log ends with that child and the removal of the
    temporary directory. *)
Theorem negative_count_never_returns_0 (w : World) (fuel : nat)
    (mp3_path dev : string) (n : Z) (s s' : State) (rc : Z) :
  let td := mkdtemp w (S (S (clock s))) in
  n < 0 ->
  _run_ffmpeg_to_wav_then_aplay w fuel mp3_path dev n s = (Val rc, s') ->
  rc <> 0 /\
  ((rc = 127 /\
    trace s' = (trace s ++ [EvWhich "ffmpeg"; EvWhich "aplay"])%list) \/
   (exists argv out runs,
      spawn w (pred (clock s')) argv = Exited rc out /\
      trace s' =
        (trace s ++ [EvWhich "ffmpeg"; EvWhich "aplay"; EvMkTemp td] ++
         runs ++ [EvRun argv; EvRmTemp td])%list /\
      Forall is_run runs)).
Proof.
  intros td Hn H.
  assert (Hgone :
    truthy (which w (clock s) "ffmpeg") = false \/
    truthy (which w (S (clock s)) "aplay") = false ->
    rc = 127 /\
    trace s' = (trace s ++ [EvWhich "ffmpeg"; EvWhich "aplay"])%list).
  { intros Hg. rewrite pipeline_located_or_127 in H. cbv zeta in H.
    assert (E : negb (truthy (which w (clock s) "ffmpeg")) ||
                negb (truthy (which w (S (clock s)) "aplay")) = true).
    { destruct Hg as [-> | ->]; [reflexivity | apply orb_true_r]. }
    rewrite E in H. injection H as <- <-. cbn [trace].
    now rewrite <- app_assoc. }
  destruct (truthy (which w (clock s) "ffmpeg")) eqn:Hf;
    [| destruct Hgone as [-> T]; [now left |];
       split; [discriminate | left; now split]].
  destruct (truthy (which w (S (clock s)) "aplay")) eqn:Ha;
    [| destruct Hgone as [-> T]; [now right |];
       split; [discriminate | left; now split]].
  clear Hgone.
  rewrite pipeline_decode_step in H by assumption. fold td in H.
  destruct (spawn w _ _) as [rc1 out | e] eqn:Hdec; [| discriminate H].
  destruct (Z.eqb_spec rc1 0) as [-> | Hrc1]; cbn [negb] in H.
  - destruct (Z.ltb_spec n 0) as [_ | Hpos]; [| lia].
    destruct (play_forever w fuel _ _) as [[x | e |] s4] eqn:E;
      try discriminate H.
    injection H as <- <-.
    split; [now apply play_forever_nonzero in E |]. right.
    apply play_forever_last_child in E as (out' & runs & Hsp & T & F).
    eexists _, out', (EvRun _ :: runs). repeat split.
    + exact Hsp.
    + cbn [trace]. rewrite T. cbn [trace].
      rewrite <- !app_assoc. reflexivity.
    + constructor; [exact I | exact F].
  - injection H as <- <-. split; [exact Hrc1 |]. right.
    eexists _, out, []. repeat split.
    + cbn [clock pred]. exact Hdec.
    + cbn [trace]. rewrite <- !app_assoc. reflexivity.
    + constructor.
Qed.

Lemma negative_count_never_returns_0_witness :
  _run_ffmpeg_to_wav_then_aplay (children_fail_from 6 7) 10
    "/home/pi/track1.mp3" "default" (-1) initial =
  (Val 7,
   mkState 7
     [EvWhich "ffmpeg"; EvWhich "aplay";
      EvMkTemp "/tmp/pcm5100_test_k3x9";
      EvRun (decode_argv "/usr/bin/ffmpeg" "/home/pi/track1.mp3"
               "/tmp/pcm5100_test_k3x9/decoded.wav");
      EvRun ["/usr/bin/aplay"; "/tmp/pcm5100_test_k3x9/decoded.wav"];
      EvRun ["/usr/bin/aplay"; "/tmp/pcm5100_test_k3x9/decoded.wav"];
      EvRun ["/usr/bin/aplay"; "/tmp/pcm5100_test_k3x9/decoded.wav"];
      EvRmTemp "/tmp/pcm5100_test_k3x9"]) /\
  7 <> 0.
Proof.
  split; [reflexivity |].
  eapply proj1.
  eapply (negative_count_never_returns_0 (children_fail_from 6 7) 10
            "/home/pi/track1.mp3" "default" (-1) initial).
  - reflexivity.
  - reflexivity.
Defined.

(** X5. For a negative loop count, while the player keeps exiting with 0
    the pipeline does not end: with any amount of fuel the run is cut off
    inside the loop, after as many rounds as there was fuel, and the
    temporary directory is still there. *)
Theorem negative_count_runs_forever (w : World) (fuel : nat)
    (mp3_path dev : string) (n : Z) (s : State) (out1 : string) :
  let t := clock s in
  let ffmpeg := the (which w t "ffmpeg") in
  let aplay := the (which w (S t) "aplay") in
  let td := mkdtemp w (S (S t)) in
  let wav := td ++ "/decoded.wav" in
  let decode := decode_argv ffmpeg mp3_path wav in
  let play := play_argv aplay dev wav in
  n < 0 ->
  truthy (which w t "ffmpeg") = true ->
  truthy (which w (S t) "aplay") = true ->
  spawn w (S (S (S t))) decode = Exited 0 out1 ->
  (forall i, exists o, spawn w (4 + t + i)%nat play = Exited 0 o) ->
  _run_ffmpeg_to_wav_then_aplay w fuel mp3_path dev n s =
    (Hang,
     mkState (4 + t + fuel)
       (trace s ++
        [EvWhich "ffmpeg"; EvWhich "aplay"; EvMkTemp td; EvRun decode] ++
        repeat (EvRun play) fuel)).
Proof.
  intros t ffmpeg aplay td wav decode play Hn Hf Ha Hdec Hok.
  rewrite pipeline_decode_step by assumption.
  fold t ffmpeg aplay td wav decode play. rewrite Hdec.
  cbn [Z.eqb negb].
  destruct (Z.ltb_spec n 0) as [_ | Hpos]; [| lia].
  rewrite play_forever_hangs by exact Hok.
  cbn [clock trace]. rewrite <- !app_assoc. reflexivity.
Qed.

Lemma negative_count_runs_forever_witness :
  fst (_run_ffmpeg_to_wav_then_aplay quiet_host 25 "/home/pi/track1.mp3"
         "default" (-1) initial) = Hang.
Proof.
  rewrite (negative_count_runs_forever quiet_host 25 "/home/pi/track1.mp3"
             "default" (-1) initial "").
  - reflexivity.
  - reflexivity.
  - reflexivity.
  - reflexivity.
  - reflexivity.
  - intros i. exists "". reflexivity.
Defined.

(** ** The pipeline descriptor in the candidate loop *)

(** The loop on the descriptor the generator builds: outside dry-run mode
    it is the pipeline, run on the fields the descriptor was built from. *)
Lemma loop_on_pipeline_descriptor (w : World) (fuel : nat) (a : Args)
    (mp3_path : string) (dev : option string) (n : Z) (rest : list Cmd)
    (s : State) :
  dry_run a = false ->
  try_candidates w fuel a (pipeline_cmd mp3_path dev n :: rest) s =
  _run_ffmpeg_to_wav_then_aplay w fuel mp3_path (or_default dev "default") n
    (pipeline_announced (or_default dev "default") s).
Proof.
  intros Hdry. cbn [try_candidates]. unfold bind at 1, pipeline_cmd.
  rewrite (attempt_pipeline w fuel a mp3_path (or_default dev "default")
             (str n) n s Hdry (int_of_str_str n)).
  destruct (_run_ffmpeg_to_wav_then_aplay w fuel mp3_path
              (or_default dev "default") n
              (pipeline_announced (or_default dev "default") s))
    as [[rc | e |] s']; reflexivity.
Qed.

(** X6. The descriptor of the pipeline survives its trip through strings:
    outside dry-run mode the loop, on reaching the descriptor built from a
    path, a device and a loop count, ends exactly as the pipeline run on
    that path, that device (or ["default"]) and that count ends -- no
    [ValueError] from [int] -- and the candidates after it play no part. *)
Theorem pipeline_descriptor_round_trip (w : World) (fuel : nat) (a : Args)
    (mp3_path : string) (dev : option string) (n : Z) (rest : list Cmd)
    (s : State) :
  dry_run a = false ->
  try_candidates w fuel a (pipeline_cmd mp3_path dev n :: rest) s =
    _run_ffmpeg_to_wav_then_aplay w fuel mp3_path
      (or_default dev "default") n
      (pipeline_announced (or_default dev "default") s) /\
  (forall before,
     try_candidates w fuel a
       (before ++ pipeline_cmd mp3_path dev n :: rest) s =
     try_candidates w fuel a (before ++ [pipeline_cmd mp3_path dev n]) s).
Proof.
  intros Hdry. split; [now apply loop_on_pipeline_descriptor |].
  intros before. revert s.
  induction before as [| c before IH]; intros s.
  - rewrite !app_nil_l. now rewrite !loop_on_pipeline_descriptor.
  - rewrite <- !app_comm_cons. cbn [try_candidates].
    apply bind_ext. intros [| status] s'; [apply IH | reflexivity].
Qed.

Lemma pipeline_descriptor_round_trip_witness :
  try_candidates quiet_host 0 (loop_request 12)
    [pipeline_cmd "/home/pi/track1.mp3" (Some "hw:1,0") 12;
     mkCmd "/usr/bin/mpg123" ["/home/pi/track1.mp3"]] initial =
  _run_ffmpeg_to_wav_then_aplay quiet_host 0 "/home/pi/track1.mp3"
    "hw:1,0" 12 (pipeline_announced "hw:1,0" initial).
Proof.
  apply (pipeline_descriptor_round_trip quiet_host 0 (loop_request 12)
           "/home/pi/track1.mp3" (Some "hw:1,0") 12
           [mkCmd "/usr/bin/mpg123" ["/home/pi/track1.mp3"]] initial).
  reflexivity.
Defined.

(** X7. When ffmpeg or aplay is no longer found at the moment the
    pipeline starts, the loop returns 127 at once: no temporary directory
    is made and no child is run. *)
Theorem pipeline_tools_gone_exits_127 (w : World) (fuel : nat) (a : Args)
    (mp3_path : string) (dev : option string) (n : Z) (rest : list Cmd)
    (s : State) :
  let t := clock s in
  dry_run a = false ->
  truthy (which w t "ffmpeg") = false \/
  truthy (which w (S t) "aplay") = false ->
  try_candidates w fuel a (pipeline_cmd mp3_path dev n :: rest) s =
    (Val 127,
     mkState (S (S t))
       (trace s ++
        [EvPrint Stdout (UsingPipeline (or_default dev "default"));
         EvWhich "ffmpeg"; EvWhich "aplay"])).
Proof.
  intros t Hdry Hgone.
  rewrite loop_on_pipeline_descriptor by exact Hdry.
  unfold _run_ffmpeg_to_wav_then_aplay, bind, _which, ask.
  cbn [clock trace pipeline_announced]. fold t.
  assert (E : negb (truthy (which w t "ffmpeg")) ||
              negb (truthy (which w (S t) "aplay")) = true).
  { destruct Hgone as [-> | ->]; [reflexivity | apply orb_true_r]. }
  rewrite E. unfold ret. rewrite <- !app_assoc. reflexivity.
Qed.

Lemma pipeline_tools_gone_exits_127_witness :
  try_candidates (tools_until 10 only_pipeline_tools) 0 play_request
    [pipeline_cmd "/home/pi/track1.mp3" None 1] (mkState 10 []) =
  (Val 127,
   mkState 12
     [EvPrint Stdout (UsingPipeline "default");
      EvWhich "ffmpeg"; EvWhich "aplay"]).
Proof.
  apply (pipeline_tools_gone_exits_127 (tools_until 10 only_pipeline_tools)
           0 play_request "/home/pi/track1.mp3" None 1 [] (mkState 10 [])).
  - reflexivity.
  - left. reflexivity.
Defined.

(** The same through [main]: ffmpeg and aplay are found while the
    candidates are generated and gone when the pipeline starts. *)
Example tools_vanish_before_pipeline :
  main (tools_until 10 only_pipeline_tools) 0 play_request initial =
  (Val 127,
   mkState 12
     [EvExists "/home/pi/track1.mp3";
      EvWhich "aplay"; EvCapture ["/usr/bin/aplay"; "-l"];
      EvWhich "aplay"; EvCapture ["/usr/bin/aplay"; "-L"];
      EvReadText "/proc/device-tree/model";
      EvWhich "mpg123"; EvWhich "ffplay"; EvWhich "ffmpeg"; EvWhich "aplay";
      EvPrint Stdout (UsingPipeline "default");
      EvWhich "ffmpeg"; EvWhich "aplay"]).
Proof. reflexivity. Qed.

(** X8. A launch error in the pipeline is not caught: when the decoder is
    located but cannot be launched, the loop ends in the uncaught
    [FileNotFoundError] -- it neither returns a status nor moves on to
    another candidate -- and the temporary directory is removed on the
    way out. *)
Theorem pipeline_launch_error_is_not_caught (w : World) (fuel : nat)
    (a : Args) (mp3_path : string) (dev : option string) (n : Z)
    (rest : list Cmd) (s : State) :
  let t := clock s in
  let ffmpeg := the (which w t "ffmpeg") in
  let td := mkdtemp w (S (S t)) in
  let decode := decode_argv ffmpeg mp3_path (td ++ "/decoded.wav") in
  dry_run a = false ->
  truthy (which w t "ffmpeg") = true ->
  truthy (which w (S t) "aplay") = true ->
  spawn w (S (S (S t))) decode = LaunchNotFound ->
  try_candidates w fuel a (pipeline_cmd mp3_path dev n :: rest) s =
    (Exn FileNotFoundError,
     mkState (S (S (S (S t))))
       (trace s ++
        [EvPrint Stdout (UsingPipeline (or_default dev "default"));
         EvWhich "ffmpeg"; EvWhich "aplay"; EvMkTemp td; EvRun decode;
         EvRmTemp td])).
Proof.
  intros t ffmpeg td decode Hdry Hf Ha Hdec.
  rewrite loop_on_pipeline_descriptor by exact Hdry.
  rewrite pipeline_decode_step; cbn [clock pipeline_announced];
    try assumption.
  fold t ffmpeg td decode. rewrite Hdec.
  unfold pipeline_announced. cbn [trace].
  rewrite <- !app_assoc. reflexivity.
Qed.

Lemma pipeline_launch_error_is_not_caught_witness :
  try_candidates unlaunchable_decoder_host 0 play_request
    [pipeline_cmd "/home/pi/track1.mp3" None 1] initial =
  (Exn FileNotFoundError,
   mkState 4
     [EvPrint Stdout (UsingPipeline "default");
      EvWhich "ffmpeg"; EvWhich "aplay";
      EvMkTemp "/tmp/pcm5100_test_k3x9";
      EvRun (decode_argv "/usr/bin/ffmpeg" "/home/pi/track1.mp3"
               "/tmp/pcm5100_test_k3x9/decoded.wav");
      EvRmTemp "/tmp/pcm5100_test_k3x9"]).
Proof.
  apply (pipeline_launch_error_is_not_caught unlaunchable_decoder_host 0
           play_request "/home/pi/track1.mp3" None 1 [] initial);
    reflexivity.
Defined.

(** ** Exhausting the candidates *)

(** X9. When every candidate is a simple backend and each of them fails
    in its turn, the loop returns 1 and its last act is the line "all
    backends failed" on stderr. *)
Theorem every_simple_backend_failed_exits_1 (w : World) (fuel : nat)
    (a : Args) (candidates : list Cmd) (s : State) :
  dry_run a = false ->
  forallb simple candidates = true ->
  each_failed w fuel candidates s ->
  exists s' evs,
    try_candidates w fuel a candidates s = (Val 1, s') /\
    trace s' = (trace s ++ evs ++ [EvPrint Stderr AllFailed])%list.
Proof.
  intros Hdry Hall Hfailed.
  induction Hfailed as
    [s | cmd rest s k out Hs Hrun Hk _ IH | cmd rest s Hs Hrun _ IH
     | m d l n s s' k _ _ _].
  - eexists _, []. split; [reflexivity | reflexivity].
  - cbn [forallb] in Hall. apply andb_prop in Hall as [_ Hrest].
    destruct (IH Hrest) as (s' & evs & E & T).
    exists s',
      ([EvPrint Stdout (UsingBackend (exe cmd)); EvPrint Stdout (Running cmd);
        EvRun (as_list cmd); EvPrint Stderr (BackendFailed k)] ++ evs)%list.
    split.
    + cbn [try_candidates]. unfold bind at 1.
      rewrite attempt_simple, Hrun by assumption.
      destruct (Z.eqb_spec k 0); [contradiction | exact E].
    + rewrite T. unfold reported, launched. cbn [trace].
      rewrite <- !app_assoc. reflexivity.
  - cbn [forallb] in Hall. apply andb_prop in Hall as [_ Hrest].
    destruct (IH Hrest) as (s' & evs & E & T).
    exists s',
      ([EvPrint Stdout (UsingBackend (exe cmd)); EvPrint Stdout (Running cmd);
        EvRun (as_list cmd)] ++ evs)%list.
    split.
    + cbn [try_candidates]. unfold bind at 1.
      rewrite attempt_simple, Hrun by assumption. exact E.
    + rewrite T. unfold launched. cbn [trace].
      rewrite <- !app_assoc. reflexivity.
  - discriminate Hall.
Qed.

Lemma every_simple_backend_failed_exits_1_witness :
  exists s' evs,
    try_candidates failing_simple_host 0 play_request
      [mkCmd "/usr/bin/mpg123" ["/home/pi/track1.mp3"];
       mkCmd "/usr/bin/ffplay"
         ["-nodisp"; "-autoexit"; "-loglevel"; "error";
          "/home/pi/track1.mp3"]] initial = (Val 1, s') /\
    trace s' = (trace initial ++ evs ++ [EvPrint Stderr AllFailed])%list.
Proof.
  apply (every_simple_backend_failed_exits_1 failing_simple_host 0
           play_request).
  - reflexivity.
  - reflexivity.
  - eapply simple_failed;
      [reflexivity | reflexivity | discriminate |].
    eapply simple_failed;
      [reflexivity | reflexivity | discriminate |].
    apply none_left.
Defined.

(** The same through [main]: mpg123 and ffplay are installed and both
    exit with status 1. *)
Example both_simple_backends_fail :
  main failing_simple_host 0 play_request initial =
  (Val 1,
   mkState 10
     [EvExists "/home/pi/track1.mp3";
      EvWhich "aplay"; EvWhich "aplay";
      EvReadText "/proc/device-tree/model";
      EvWhich "mpg123"; EvWhich "ffplay"; EvWhich "ffmpeg"; EvWhich "aplay";
      EvPrint Stdout (UsingBackend "/usr/bin/mpg123");
      EvPrint Stdout
        (Running (mkCmd "/usr/bin/mpg123" ["/home/pi/track1.mp3"]));
      EvRun ["/usr/bin/mpg123"; "/home/pi/track1.mp3"];
      EvPrint Stderr (BackendFailed 1);
      EvPrint Stdout (UsingBackend "/usr/bin/ffplay");
      EvPrint Stdout
        (Running
           (mkCmd "/usr/bin/ffplay"
              ["-nodisp"; "-autoexit"; "-loglevel"; "error";
               "/home/pi/track1.mp3"]));
      EvRun ["/usr/bin/ffplay"; "-nodisp"; "-autoexit"; "-loglevel";
             "error"; "/home/pi/track1.mp3"];
      EvPrint Stderr (BackendFailed 1);
      EvPrint Stderr AllFailed]).
Proof. reflexivity. Qed.

(** ** What a run logs, however it ends *)

Lemma logs_ret {A} (P : event -> Prop) (x : A) : logs_only P (ret x).
Proof. intros s. apply extends_refl. Qed.

Lemma logs_raise {A} (P : event -> Prop) (e : exn) :
  logs_only P (@raise A e).
Proof. intros s. apply extends_refl. Qed.

Lemma logs_bind {A B} (P : event -> Prop) (m : M A) (k : A -> M B) :
  logs_only P m -> (forall x, logs_only P (k x)) -> logs_only P (bind m k).
Proof.
  intros Hm Hk s. unfold bind. specialize (Hm s).
  destruct (m s) as [[x | e |] s1]; cbn [snd] in *; try exact Hm.
  eapply extends_trans; [exact Hm | apply Hk].
Qed.

(** The same when the continuation is only known to behave on the values
    [m] can return. *)
Lemma logs_bind_post {A B} (P : event -> Prop) (R : A -> Prop) (m : M A)
    (k : A -> M B) :
  logs_only P m -> returns_in R m ->
  (forall x, R x -> logs_only P (k x)) -> logs_only P (bind m k).
Proof.
  intros Hm Hr Hk s. unfold bind. specialize (Hm s). specialize (Hr s).
  destruct (m s) as [[x | e |] s1]; cbn [snd] in *; try exact Hm.
  eapply extends_trans; [exact Hm | apply Hk]. eapply Hr. reflexivity.
Qed.

Lemma logs_ask {A} (P : event -> Prop) (ev : event) (answer : nat -> A) :
  P ev -> logs_only P (ask ev answer).
Proof. intros H s. now apply extends_one. Qed.

Lemma logs_ask_bind {A B} (P : event -> Prop) (ev : event)
    (answer : nat -> A) (k : A -> M B) :
  P ev -> (forall t, logs_only P (k (answer t))) ->
  logs_only P (bind (ask ev answer) k).
Proof.
  intros Hev Hk s. unfold bind, ask.
  eapply extends_trans; [apply extends_one, Hev | apply Hk].
Qed.

Lemma logs_print (P : event -> Prop) (to : stream) (m : message) :
  P (EvPrint to m) -> logs_only P (print to m).
Proof. intros H s. now apply extends_one. Qed.

Lemma logs_subprocess_run (w : World) (P : event -> Prop)
    (argv : list string) :
  P (EvRun argv) -> logs_only P (subprocess_run w argv).
Proof.
  intros H s. rewrite subprocess_run_eq.
  destruct (spawn w (clock s) argv); now apply extends_one.
Qed.

Lemma logs_run_capture (w : World) (P : event -> Prop)
    (argv : list string) :
  P (EvCapture argv) -> logs_only P (_run_capture w argv).
Proof.
  intros H s. unfold _run_capture, bind, ask.
  destruct (spawn w (clock s) argv); now apply extends_one.
Qed.

Lemma logs_play_times (w : World) (P : event -> Prop) (argv : list string)
    (n : nat) :
  P (EvRun argv) -> logs_only P (play_times w n argv).
Proof.
  intros H. induction n as [| n IH]; cbn [play_times].
  - apply logs_ret.
  - apply logs_bind; [now apply logs_subprocess_run |].
    intros rc. destruct (negb (rc =? 0)); [apply logs_ret | exact IH].
Qed.

Lemma logs_play_forever (w : World) (P : event -> Prop)
    (argv : list string) (fuel : nat) :
  P (EvRun argv) -> logs_only P (play_forever w fuel argv).
Proof.
  intros H. induction fuel as [| fuel IH]; cbn [play_forever].
  - intros s. apply extends_refl.
  - apply logs_bind; [now apply logs_subprocess_run |].
    intros rc. destruct (negb (rc =? 0)); [apply logs_ret | exact IH].
Qed.

(** A [with] block on a temporary directory: unless the body never ends,
    what the body logs lies between the creation of the directory and its
    removal. *)
Lemma with_tempdir_brackets {A} (w : World) (P : event -> Prop)
    (body : string -> M A) (s : State) :
  (forall td, logs_only P (body td)) ->
  let td := mkdtemp w (clock s) in
  fst (with_tempdir w body s) <> Hang ->
  exists evs,
    trace (snd (with_tempdir w body s)) =
      (trace s ++ [EvMkTemp td] ++ evs ++ [EvRmTemp td])%list /\
    Forall P evs.
Proof.
  intros Hbody td Hend. unfold with_tempdir in *. fold td in Hend |- *.
  set (s1 := mkState (S (clock s)) (trace s ++ [EvMkTemp td])) in *.
  destruct (Hbody td s1) as (evs & E & F).
  destruct (body td s1) as [[x | e |] s2]; cbn [fst snd trace] in *.
  - exists evs. split; [| exact F].
    rewrite E. unfold s1. cbn [trace]. now rewrite <- !app_assoc.
  - exists evs. split; [| exact F].
    rewrite E. unfold s1. cbn [trace]. now rewrite <- !app_assoc.
  - now elim Hend.
Qed.

Lemma logs_with_tempdir {A} (w : World) (P : event -> Prop)
    (body : string -> M A) :
  (forall td, P (EvMkTemp td)) -> (forall td, P (EvRmTemp td)) ->
  (forall td, logs_only P (body td)) ->
  logs_only P (with_tempdir w body).
Proof.
  intros Hmk Hrm Hbody s. unfold with_tempdir.
  set (td := mkdtemp w (clock s)).
  set (s1 := mkState (S (clock s)) (trace s ++ [EvMkTemp td])).
  assert (X1 : extends P s s1) by apply extends_one, Hmk.
  specialize (Hbody td s1).
  destruct (body td s1) as [[x | e |] s2]; cbn [snd] in *.
  - eapply extends_trans; [exact X1 |].
    eapply extends_trans; [exact Hbody | apply extends_one, Hrm].
  - eapply extends_trans; [exact X1 |].
    eapply extends_trans; [exact Hbody | apply extends_one, Hrm].
  - eapply extends_trans; [exact X1 | exact Hbody].
Qed.

(** X10. The temporary directory of the pipeline is removed on every way
    out: whenever the pipeline ends -- in a status or in an exception --
    either it returned 127 before making a directory, or its log is the
    two lookups, the creation of the directory, child runs only, and the
    removal of that same directory as the last event. *)
Theorem tempdir_removed_on_every_exit (w : World) (fuel : nat)
    (mp3_path dev : string) (n : Z) (s : State) :
  let t := clock s in
  let td := mkdtemp w (S (S t)) in
  let r := _run_ffmpeg_to_wav_then_aplay w fuel mp3_path dev n s in
  fst r <> Hang ->
  r = (Val 127,
       mkState (S (S t)) (trace s ++ [EvWhich "ffmpeg"; EvWhich "aplay"])) \/
  exists runs,
    trace (snd r) =
      (trace s ++ [EvWhich "ffmpeg"; EvWhich "aplay"; EvMkTemp td] ++
       runs ++ [EvRmTemp td])%list /\
    Forall is_run runs.
Proof.
  intros t td r Hend. unfold r in *. clear r.
  rewrite pipeline_located_or_127 in Hend |- *. cbv zeta in Hend |- *.
  fold t in Hend |- *.
  destruct (negb (truthy (which w t "ffmpeg")) ||
            negb (truthy (which w (S t) "aplay"))).
  - left. now rewrite <- !app_assoc.
  - right.
    match type of Hend with
    | fst (with_tempdir w ?b ?s2) <> Hang =>
        destruct (with_tempdir_brackets w is_run b s2) as (runs & E & F);
          [| exact Hend |]
    end.
    + intros td0. apply logs_bind; [now apply logs_subprocess_run |].
      intros rc1. destruct (negb (rc1 =? 0)); [apply logs_ret |].
      destruct (n <? 0);
        [now apply logs_play_forever | now apply logs_play_times].
    + exists runs. split; [| exact F].
      rewrite E. cbn [clock trace]. fold td.
      now rewrite <- !app_assoc.
Qed.

Lemma tempdir_removed_on_every_exit_witness :
  exists runs,
    trace (snd (_run_ffmpeg_to_wav_then_aplay unlaunchable_decoder_host 0
                  "/home/pi/track1.mp3" "default" 2 initial)) =
      ([EvWhich "ffmpeg"; EvWhich "aplay";
        EvMkTemp "/tmp/pcm5100_test_k3x9"] ++
       runs ++ [EvRmTemp "/tmp/pcm5100_test_k3x9"])%list /\
    Forall is_run runs.
Proof.
  destruct (tempdir_removed_on_every_exit unlaunchable_decoder_host 0
              "/home/pi/track1.mp3" "default" 2 initial) as [E | H].
  - discriminate.
  - discriminate E.
  - exact H.
Defined.

(** ** What a whole run logs *)

Lemma located_of_which (w : World) (t : nat) (name : string) :
  In name tool_names -> truthy (which w t name) = true ->
  located_path w (the (which w t name)).
Proof.
  intros Hin Ht. exists t, name.
  destruct (which w t name) as [p |]; [| discriminate Ht].
  cbn [the truthy] in *. now repeat split.
Qed.

Lemma backend_commands_launchable (w : World) (mp3_path : string)
    (dev : option string) (n : Z) :
  returns_in (Forall (launchable w)) (_backend_commands w mp3_path dev n).
Proof.
  intros s l s' H. rewrite backend_commands_run in H.
  injection H as <- _.
  apply Forall_app; split.
  - destruct (truthy (which w (clock s) "mpg123")) eqn:E; constructor;
      [| constructor].
    intros _. cbn [exe]. apply located_of_which; [cbn; tauto | exact E].
  - apply Forall_app; split.
    + destruct (truthy (which w (S (clock s)) "ffplay")) eqn:E; constructor;
        [| constructor].
      intros _. cbn [exe]. apply located_of_which; [cbn; tauto | exact E].
    + destruct (truthy (which w (S (S (clock s))) "ffmpeg") &&
                truthy (which w (S (S (S (clock s)))) "aplay"));
        constructor; [| constructor].
      intros H. discriminate H.
Qed.

Section MainLogs.

Variable w : World.
Variable P : event -> Prop.

Hypothesis P_exists : forall p, P (EvExists p).
Hypothesis P_read : forall p, P (EvReadText p).
Hypothesis P_mktemp : forall td, P (EvMkTemp td).
Hypothesis P_rmtemp : forall td, P (EvRmTemp td).
Hypothesis P_which : forall name, In name tool_names -> P (EvWhich name).
Hypothesis P_capture :
  forall p rest, located_path w p -> P (EvCapture (p :: rest)).
Hypothesis P_run : forall p rest, located_path w p -> P (EvRun (p :: rest)).
Hypothesis P_stderr :
  forall m, diagnostic m = true -> P (EvPrint Stderr m).
Hypothesis P_stdout :
  forall m, diagnostic m = false -> P (EvPrint Stdout m).

Lemma logs_aplay_list (flag : string) :
  logs_only P
    (aplay <- _which w "aplay" ;;
     if negb (truthy aplay) then ret ""
     else _run_capture w [the aplay; flag])%py.
Proof.
  apply logs_ask_bind; [apply P_which; cbn; tauto |]. intros t.
  destruct (truthy (which w t "aplay")) eqn:E; cbn [negb];
    [| apply logs_ret].
  apply logs_run_capture, P_capture, located_of_which; [cbn; tauto | exact E].
Qed.

Lemma logs_is_raspberry_pi : logs_only P (_is_raspberry_pi w).
Proof.
  unfold _is_raspberry_pi, _read_text_if_exists, exists_.
  apply logs_ask_bind; [apply P_read |]. intros t.
  destruct (is_pi_model _); [apply logs_ret |].
  destruct (_ || _); [| apply logs_ret].
  apply logs_ask_bind; [apply P_exists |]. intros t'.
  destruct (path_exists w t' _); [| apply logs_ret].
  apply logs_ask_bind; [apply P_read |]. intros t''. apply logs_ret.
Qed.

Lemma logs_backend_commands (mp3_path : string) (dev : option string)
    (n : Z) :
  logs_only P (_backend_commands w mp3_path dev n).
Proof.
  intros s. rewrite backend_commands_run. cbn [snd].
  apply extends_app.
  repeat constructor; apply P_which; cbn; tauto.
Qed.

Lemma logs_pipeline (fuel : nat) (mp3_path dev : string) (n : Z) :
  logs_only P (_run_ffmpeg_to_wav_then_aplay w fuel mp3_path dev n).
Proof.
  unfold _run_ffmpeg_to_wav_then_aplay, _which.
  apply logs_ask_bind; [apply P_which; cbn; tauto |]. intros t.
  apply logs_ask_bind; [apply P_which; cbn; tauto |]. intros t'.
  destruct (truthy (which w t "ffmpeg")) eqn:Ef; cbn [negb orb];
    [| apply logs_ret].
  destruct (truthy (which w t' "aplay")) eqn:Ea; cbn [negb];
    [| apply logs_ret].
  apply logs_with_tempdir; [exact P_mktemp | exact P_rmtemp |]. intros td.
  apply logs_bind.
  - apply logs_subprocess_run. unfold decode_argv.
    apply P_run, located_of_which; [cbn; tauto | exact Ef].
  - intros rc1. destruct (negb (rc1 =? 0)); [apply logs_ret |].
    assert (Hplay : P (EvRun (play_argv (the (which w t' "aplay")) dev
                                (td ++ "/decoded.wav")))).
    { unfold play_argv. cbn [app].
      apply P_run, located_of_which; [cbn; tauto | exact Ea]. }
    destruct (n <? 0);
      [now apply logs_play_forever | now apply logs_play_times].
Qed.

Lemma logs_attempt (fuel : nat) (a : Args) (cmd : Cmd) :
  launchable w cmd -> logs_only P (attempt w fuel a cmd).
Proof.
  intros Hcmd. unfold attempt.
  destruct (String.eqb (exe cmd) ffmpeg_aplay) eqn:E.
  - destruct (args cmd) as [| x [| y [| z [| u rest]]]];
      try apply logs_raise.
    apply logs_bind; [apply logs_print, P_stdout; reflexivity |].
    intros _. destruct (dry_run a).
    + apply logs_bind; [apply logs_print, P_stdout; reflexivity |].
      intros _. apply logs_ret.
    + destruct (int_of_str z); [| apply logs_raise].
      apply logs_bind; [apply logs_pipeline |]. intros rc. apply logs_ret.
  - apply logs_bind; [apply logs_print, P_stdout; reflexivity |].
    intros _.
    apply logs_bind; [apply logs_print, P_stdout; reflexivity |].
    intros _. destruct (dry_run a); [apply logs_ret |].
    assert (Hrun : P (EvRun (as_list cmd))).
    { unfold as_list. now apply P_run, Hcmd. }
    intros s. rewrite subprocess_run_eq.
    destruct (spawn w (clock s) (as_list cmd)) as [rc out | e].
    + destruct (rc =? 0); [now apply extends_one |].
      unfold bind, print, emit, ret. cbn [snd clock trace].
      rewrite <- app_assoc. apply extends_app.
      repeat constructor; [exact Hrun | now apply P_stderr].
    + destruct e; now apply extends_one.
Qed.

Lemma logs_try_candidates (fuel : nat) (a : Args) (candidates : list Cmd) :
  Forall (launchable w) candidates ->
  logs_only P (try_candidates w fuel a candidates).
Proof.
  induction 1 as [| cmd rest Hcmd _ IH]; cbn [try_candidates].
  - apply logs_bind; [apply logs_print, P_stderr; reflexivity |].
    intros _. apply logs_ret.
  - apply logs_bind; [now apply logs_attempt |].
    intros [| status]; [exact IH | apply logs_ret].
Qed.

Lemma main_logs_only (fuel : nat) (a : Args) :
  logs_only P (main w fuel a).
Proof.
  unfold main, exists_.
  apply logs_ask_bind; [apply P_exists |]. intros t.
  destruct (path_exists w t _); cbn [negb].
  2:{ apply logs_bind; [apply logs_print, P_stderr; reflexivity |].
      intros _. apply logs_ret. }
  apply logs_bind; [apply logs_aplay_list |]. intros aplay_l.
  apply logs_bind; [apply logs_aplay_list |]. intros aplay_L.
  destruct (list_devices a).
  { repeat (apply logs_bind;
              [apply logs_print, P_stdout; reflexivity | intros _]).
    apply logs_ret. }
  apply logs_bind; [apply logs_is_raspberry_pi |]. intros pi.
  apply logs_bind.
  { destruct (pi && _); [apply logs_print, P_stderr; reflexivity
                        | apply logs_ret]. }
  intros _.
  eapply logs_bind_post;
    [apply logs_backend_commands | apply backend_commands_launchable |].
  intros [| cmd rest] Hl.
  - apply logs_bind; [apply logs_print, P_stderr; reflexivity |].
    intros _. apply logs_ret.
  - now apply logs_try_candidates.
Qed.

End MainLogs.

(** X11. Whatever the host answers and however the run ends, [main] looks
    up only mpg123, ffplay, ffmpeg and aplay, and every child it starts --
    captured or not -- is started from a path that [shutil.which] returned
    for one of those four names. *)
Theorem main_stays_within_tools (w : World) (fuel : nat) (a : Args) :
  logs_only (within_tools w) (main w fuel a).
Proof.
  apply main_logs_only; cbn; try tauto.
  - intros p rest H. now exists p, rest.
  - intros p rest H. now exists p, rest.
Qed.

(** X12. Whatever the host answers and however the run ends, [main]
    prints its diagnostics -- file not found, the I2S hint, no backend
    found, a failed backend, all backends failed -- on stderr, and every
    other line on stdout. *)
Theorem main_prints_on_the_right_stream (w : World) (fuel : nat) (a : Args) :
  logs_only on_its_stream (main w fuel a).
Proof.
  apply main_logs_only; cbn; tauto.
Qed.

(** ** The card guess *)

Lemma contains_eq (needle hay : string) :
  contains needle hay =
  String.prefix needle hay ||
  match hay with
  | EmptyString => false
  | String _ rest => contains needle rest
  end.
Proof. destruct hay; reflexivity. Qed.

Lemma string_app_assoc (a b c : string) :
  ((a ++ b) ++ c = a ++ (b ++ c))%string.
Proof. induction a as [| x a IH]; cbn; [reflexivity | now rewrite IH]. Qed.

Lemma prefix_app (a q : string) : String.prefix a (a ++ q) = true.
Proof.
  induction a as [| x a IH]; cbn; [now destruct q |].
  destruct (ascii_dec x x) as [_ | N]; [exact IH | now elim N].
Qed.

Lemma prefix_split (a b : string) :
  String.prefix a b = true -> exists q, b = (a ++ q)%string.
Proof.
  revert b. induction a as [| x a IH]; intros b H.
  - now exists b.
  - destruct b as [| y b]; cbn in H; [discriminate H |].
    destruct (ascii_dec x y) as [-> | _]; [| discriminate H].
    destruct (IH b H) as [q ->]. now exists q.
Qed.

(** [needle in hay] holds exactly when [hay] is some text, [needle], and
    some more text. *)
Lemma contains_spec (needle hay : string) :
  contains needle hay = true <->
  exists p q, hay = (p ++ needle ++ q)%string.
Proof.
  split.
  - induction hay as [| c hay IH]; rewrite contains_eq; intros H;
      apply orb_prop in H as [H | H].
    + apply prefix_split in H as [q ->]. now exists ""%string, q.
    + discriminate H.
    + apply prefix_split in H as [q ->]. now exists ""%string, q.
    + destruct (IH H) as (p & q & ->). now exists (String c p), q.
  - intros (p & q & ->). induction p as [| c p IH]; rewrite contains_eq.
    + cbn [append]. now rewrite prefix_app.
    + cbn [append]. rewrite IH. apply orb_true_r.
Qed.

Lemma contains_trans (a b c : string) :
  contains a b = true -> contains b c = true -> contains a c = true.
Proof.
  intros Hab Hbc.
  apply contains_spec in Hab as (p & q & ->).
  apply contains_spec in Hbc as (p' & q' & ->).
  apply contains_spec. exists (p' ++ p)%string, (q ++ q')%string.
  now rewrite !string_app_assoc.
Qed.

Lemma lower_app (a b : string) :
  lower (a ++ b) = (lower a ++ lower b)%string.
Proof. induction a as [| c a IH]; cbn; [reflexivity | now rewrite IH]. Qed.

Lemma single_line_cons (c : ascii) (k : string) :
  single_line (String c k) = true ->
  c <> ascii_of_nat 10 /\ single_line k = true.
Proof.
  unfold single_line. rewrite contains_eq. rewrite negb_orb.
  intros H. apply andb_prop in H as [H1 H2]. split; [| exact H2].
  intros ->. cbn in H1. now destruct k.
Qed.

(** A keyword without a line break is a prefix of two joined lines only
    if it is a prefix of the first. *)
Lemma prefix_across_newline (k a b : string) :
  single_line k = true ->
  String.prefix k (a ++ newline ++ b) = String.prefix k a.
Proof.
  revert k. induction a as [| c a IH]; intros k Hk.
  - destruct k as [| d k]; [reflexivity |].
    apply single_line_cons in Hk as [Hd _]. cbn.
    destruct (ascii_dec d _) as [E | _]; [now elim Hd | reflexivity].
  - destruct k as [| d k]; [reflexivity |].
    apply single_line_cons in Hk as [_ Hk]. cbn [append String.prefix].
    destruct (ascii_dec d c); [now apply IH | reflexivity].
Qed.

Lemma contains_across_newline (k a b : string) :
  single_line k = true ->
  contains k (a ++ newline ++ b) = contains k a || contains k b.
Proof.
  intros Hk. induction a as [| c a IH].
  - rewrite (contains_eq k (_ ++ _)), (contains_eq k "").
    rewrite (prefix_across_newline k "" b Hk).
    cbn [append newline]. now rewrite orb_false_r.
  - rewrite (contains_eq k (_ ++ _)), (contains_eq k (String c a)).
    rewrite (prefix_across_newline k (String c a) b Hk).
    cbn [append]. fold (newline ++ b)%string. rewrite IH.
    now rewrite !orb_assoc.
Qed.

(** X13. The card guess searches the two listings one by one: a keyword
    counts exactly when it occurs in the lower-cased card listing or in
    the lower-cased PCM listing; the line break that joins the two
    neither makes a match nor hides one (for [lower] as modelled, on
    ASCII letters). *)
Theorem guess_searches_each_listing (aplay_l aplay_L : string) :
  _guess_pcm5100_card_present aplay_l aplay_L =
  existsb (fun k => contains k (lower aplay_l) || contains k (lower aplay_L))
    keywords.
Proof.
  unfold _guess_pcm5100_card_present. cbv zeta.
  rewrite !lower_app.
  change (lower newline) with newline.
  unfold keywords. cbn [existsb].
  now rewrite !contains_across_newline by reflexivity.
Qed.

(** X14. Four of the eight keywords never decide the card guess: each of
    snd_rpi_hifiberry_dac, sndrpihifiberry, rpi-dac and rpidac contains
    hifiberry or dac, so the guess is the same as the search for
    hifiberry, i2s, dac and pcm51 alone. *)
Theorem guess_decided_by_core_keywords (aplay_l aplay_L : string) :
  _guess_pcm5100_card_present aplay_l aplay_L =
  existsb (fun k => contains k (lower (aplay_l ++ newline ++ aplay_L)))
    core_keywords.
Proof.
  unfold _guess_pcm5100_card_present. cbv zeta.
  set (hay := lower _).
  assert (H : forall a b, contains a b = true ->
                contains b hay = true -> contains a hay = true)
    by (intros a b; apply contains_trans).
  unfold keywords, core_keywords. cbn [existsb].
  pose proof (H "hifiberry" "snd_rpi_hifiberry_dac" eq_refl)%string as H3.
  pose proof (H "hifiberry" "sndrpihifiberry" eq_refl)%string as H4.
  pose proof (H "dac" "rpi-dac" eq_refl)%string as H5.
  pose proof (H "dac" "rpidac" eq_refl)%string as H6.
  destruct (contains "hifiberry" hay); [reflexivity |].
  destruct (contains "i2s" hay); [reflexivity |].
  destruct (contains "dac" hay).
  - cbn [orb].
    destruct (contains "snd_rpi_hifiberry_dac" hay); [reflexivity |].
    destruct (contains "sndrpihifiberry" hay); [reflexivity |].
    destruct (contains "rpi-dac" hay); [reflexivity |].
    destruct (contains "rpidac" hay); reflexivity.
  - destruct (contains "snd_rpi_hifiberry_dac" hay);
      [now discriminate H3 |].
    destruct (contains "sndrpihifiberry" hay); [now discriminate H4 |].
    destruct (contains "rpi-dac" hay); [now discriminate H5 |].
    destruct (contains "rpidac" hay); [now discriminate H6 |].
    reflexivity.
Qed.

(** ** The board test *)

(** X15. [_is_raspberry_pi] answers true only on the evidence of a model
    file: whenever it returns true, one of its reads of the two model
    files gave a text that contains "Raspberry Pi" (an absent or empty
    file is no evidence).  And however it ends, all it asks of the host
    is to read those two files and to test the second for existence: it
    looks up no tool and starts no process. *)
Theorem is_raspberry_pi_rests_on_model_text (w : World) :
  returns_in
    (fun pi =>
       pi = true ->
       exists t p text,
         In p model_files /\
         read_text w t p = Some text /\
         contains "Raspberry Pi" text = true)
    (_is_raspberry_pi w) /\
  logs_only reads_only (_is_raspberry_pi w).
Proof.
  assert (Hmodel : forall t p,
    In p model_files ->
    is_pi_model (read_text w t p) = true ->
    exists t p text,
      In p model_files /\
      read_text w t p = Some text /\
      contains "Raspberry Pi" text = true).
  { intros t p Hp H. unfold is_pi_model in H.
    destruct (read_text w t p) as [text |] eqn:E; [| discriminate H].
    apply andb_prop in H as [_ H]. now exists t, p, text. }
  split.
  - intros s pi s' H Hpi. subst pi.
    unfold _is_raspberry_pi, _read_text_if_exists, exists_ in H.
    unfold bind at 1, ask at 1 in H.
    destruct (is_pi_model (read_text w (clock s) _)) eqn:E1.
    + eapply Hmodel; [| exact E1]. now left.
    + destruct (_ || _); [| discriminate H].
      unfold bind at 1, ask at 1 in H. cbn [clock trace] in H.
      destruct (path_exists w (S (clock s)) _); [| discriminate H].
      unfold bind, ask, ret in H. cbn [clock trace] in H.
      injection H as H _.
      eapply Hmodel; [| exact H]. right. now left.
  - unfold _is_raspberry_pi, _read_text_if_exists, exists_.
    apply logs_ask_bind; [exact I |]. intros t.
    destruct (is_pi_model _); [apply logs_ret |].
    destruct (_ || _); [| apply logs_ret].
    apply logs_ask_bind; [exact I |]. intros t'.
    destruct (path_exists w t' _); [| apply logs_ret].
    apply logs_ask_bind; [exact I |]. intros t''. apply logs_ret.
Qed.

(** On a Raspberry Pi whose listings name no I2S card the hint goes to
    stderr and the run goes on to the backends. *)
Example hint_precedes_the_backends :
  main pi_without_dac 0 play_request initial =
  (Val 0,
   mkState 11
     [EvExists "/home/pi/track1.mp3";
      EvWhich "aplay"; EvCapture ["/usr/bin/aplay"; "-l"];
      EvWhich "aplay"; EvCapture ["/usr/bin/aplay"; "-L"];
      EvReadText "/proc/device-tree/model";
      EvPrint Stderr I2sSetupHint;
      EvWhich "mpg123"; EvWhich "ffplay"; EvWhich "ffmpeg"; EvWhich "aplay";
      EvPrint Stdout (UsingBackend "/usr/bin/mpg123");
      EvPrint Stdout
        (Running (mkCmd "/usr/bin/mpg123" ["/home/pi/track1.mp3"]));
      EvRun ["/usr/bin/mpg123"; "/home/pi/track1.mp3"]]).
Proof. reflexivity. Qed.

(** ** No backend *)

(** X16. With no backend available, [main] on an existing file returns
    127 -- in dry-run mode too -- and the last thing it does is print the
    "no backend found" line on stderr; up to there it has run no child
    but the device listings of aplay and made no temporary directory.
    (The tool environment is fixed, the listing children can be launched,
    and [--list-devices] is not set.) *)
Theorem no_backend_exits_127 (w : World) (tools : string -> option string)
    (fuel : nat) (a : Args) (s : State) :
  tools_fixed w tools ->
  children_launch w ->
  (forall b, available tools b = false) ->
  path_exists w (clock s) (resolve w (file a)) = true ->
  list_devices a = false ->
  exists s' evs,
    main w fuel a s = (Val 127, s') /\
    trace s' = (trace s ++ evs ++ [EvPrint Stderr NoBackendFound])%list /\
    Forall (plays_nothing (the (tools "aplay"))) evs.
Proof.
  intros Hfix Hl Hnone Hfile Hlist.
  destruct (main_up_to_candidates w tools
              (plays_nothing (the (tools "aplay"))) Hfix Hl) with
    (fuel := fuel) (a := a) (s := s) as (s1 & (evs & T & F) & E);
    try (intros; exact I); try assumption.
  { intros flag [-> | ->]; [now left | now right]. }
  assert (Hempty : filter (available tools) preference = []).
  { unfold preference. cbn [filter]. now rewrite !Hnone. }
  rewrite Hempty in E. cbn [map] in E.
  exists (mkState (clock s1) (trace s1 ++ [EvPrint Stderr NoBackendFound])),
    evs.
  repeat split; [exact E | | exact F].
  cbn [trace]. rewrite T. now rewrite <- app_assoc.
Qed.

Lemma no_backend_exits_127_witness :
  exists s' evs,
    main bare_host 0 dry_request initial = (Val 127, s') /\
    trace s' =
      (trace initial ++ evs ++ [EvPrint Stderr NoBackendFound])%list /\
    Forall (plays_nothing (the (no_tools "aplay"))) evs.
Proof.
  apply (no_backend_exits_127 bare_host no_tools 0 dry_request initial).
  - intros t name. reflexivity.
  - intros t argv. discriminate.
  - intros b. now destruct b.
  - reflexivity.
  - reflexivity.
Defined.

(** ** The exit status *)

Lemma law_ret (rc : Z) : policy_status rc -> status_law (ret rc).
Proof. intros H s x s' E. injection E as <- _. now left. Qed.

Lemma announced_later (s s1 s' : State) (evs : list event) :
  trace s1 = (trace s ++ evs)%list ->
  pipeline_announced_since s1 s' -> pipeline_announced_since s s'.
Proof.
  intros T (before & d & after & E).
  exists (evs ++ before)%list, d, after.
  rewrite E, T. now rewrite <- !app_assoc.
Qed.

Lemma law_bind {A} (R : A -> Prop) (m : M A) (k : A -> M Z) :
  logs_only (fun _ => True) m -> returns_in R m ->
  (forall x, R x -> status_law (k x)) -> status_law (bind m k).
Proof.
  intros Hm Hr Hk s rc s' E. unfold bind in E.
  destruct (Hm s) as (evs & T & _).
  destruct (m s) as [[x | e |] s1] eqn:E1; try discriminate E.
  cbn [snd] in T.
  destruct (Hk x (Hr s x s1 E1) s1 rc s' E) as [H | H]; [now left |].
  right. eapply announced_later; eassumption.
Qed.

Lemma law_bind_any {A} (m : M A) (k : A -> M Z) :
  logs_only (fun _ => True) m ->
  (forall x, status_law (k x)) -> status_law (bind m k).
Proof.
  intros Hm Hk. apply (law_bind (fun _ => True)); auto.
  intros s x s' _. exact I.
Qed.

(** A round of the loop that ends in [return status]: the status is 0,
    or the round was the pipeline's. *)
Lemma attempt_return (w : World) (fuel : nat) (a : Args) (cmd : Cmd)
    (s s1 : State) (status : Z) :
  attempt w fuel a cmd s = (Val (Return status), s1) ->
  status = 0 \/ pipeline_announced_since s s1.
Proof.
  unfold attempt.
  destruct (String.eqb (exe cmd) ffmpeg_aplay).
  - destruct (args cmd) as [| x [| y [| z [| u rest]]]];
      try (intros H; discriminate H).
    unfold bind at 1, print at 1, emit at 1.
    destruct (dry_run a).
    + intros H. left. unfold bind, print, emit, ret in H.
      now injection H as <- _.
    + destruct (int_of_str z) as [n |]; [| intros H; discriminate H].
      intros H. right. unfold bind in H.
      match type of H with
      | context [_run_ffmpeg_to_wav_then_aplay w fuel x y n ?s0] =>
          destruct (logs_pipeline w (fun _ => True)
                      (fun _ => I) (fun _ => I) (fun _ _ => I)
                      (fun _ _ _ => I) fuel x y n s0) as (evs & T & _);
          destruct (_run_ffmpeg_to_wav_then_aplay w fuel x y n s0)
            as [[rc | e |] s2]; try discriminate H
      end.
      injection H as _ <-. cbn [snd trace] in T.
      exists [], y, evs. rewrite T. now rewrite <- app_assoc.
  - unfold bind at 1 2, print, emit.
    destruct (dry_run a).
    + intros H. left. unfold ret in H. now injection H as <- _.
    + rewrite subprocess_run_eq.
      destruct (spawn w _ _) as [rc out | e].
      * destruct (rc =? 0).
        -- intros H. left. now injection H as <- _.
        -- unfold bind, print, emit, ret. intros H. discriminate H.
      * destruct e; intros H; discriminate H.
Qed.

Lemma try_candidates_status (w : World) (fuel : nat) (a : Args)
    (candidates : list Cmd) :
  Forall (launchable w) candidates ->
  status_law (try_candidates w fuel a candidates).
Proof.
  induction 1 as [| cmd rest Hcmd _ IH]; intros s rc s' E;
    cbn [try_candidates] in E.
  - unfold bind, print, emit, ret in E. injection E as <- _.
    left. unfold policy_status. cbn. tauto.
  - unfold bind at 1 in E.
    destruct (logs_attempt w (fun _ => True)
                (fun _ => I) (fun _ => I) (fun _ _ => I) (fun _ _ _ => I)
                (fun _ _ => I) (fun _ _ => I) fuel a cmd Hcmd s)
      as (evs & T & _).
    destruct (attempt w fuel a cmd s) as [[r | e |] s1] eqn:E1;
      try discriminate E.
    cbn [snd] in T. destruct r as [| status].
    + destruct (IH s1 rc s' E) as [H | H]; [now left |].
      right. eapply announced_later; eassumption.
    + unfold ret in E. injection E as <- <-.
      apply attempt_return in E1 as [-> | H]; [| now right].
      left. unfold policy_status. cbn. tauto.
Qed.

(** X17. The exit statuses of mpg123 and ffplay are never passed on:
    whatever the host answers, a status that [main] returns is 0, 1, 2 or
    127, unless the run announced the pipeline backend -- the one backend
    whose status [main] returns as it is. *)
Theorem exit_status_is_policy_or_pipeline (w : World) (fuel : nat)
    (a : Args) (s s' : State) (rc : Z) :
  main w fuel a s = (Val rc, s') ->
  policy_status rc \/ pipeline_announced_since s s'.
Proof.
  revert s rc s'. change (status_law (main w fuel a)).
  assert (Hpolicy : forall rc to m,
    policy_status rc -> status_law (print to m ;; ret rc)%py).
  { intros rc to m H. apply law_bind_any; [now apply logs_print |].
    intros _. now apply law_ret. }
  unfold main, exists_.
  apply law_bind_any; [now apply logs_ask |]. intros present.
  destruct (negb present).
  { apply Hpolicy. unfold policy_status. cbn. tauto. }
  apply law_bind_any.
  { apply (logs_aplay_list w (fun _ => True)); intros; exact I. }
  intros aplay_l. apply law_bind_any.
  { apply (logs_aplay_list w (fun _ => True)); intros; exact I. }
  intros aplay_L. destruct (list_devices a).
  { repeat (apply law_bind_any; [now apply logs_print | intros _]).
    apply law_ret. unfold policy_status. cbn. tauto. }
  apply law_bind_any.
  { apply (logs_is_raspberry_pi w (fun _ => True)); intros; exact I. }
  intros pi. apply law_bind_any.
  { destruct (pi && _); [now apply logs_print | apply logs_ret]. }
  intros _.
  apply (law_bind (Forall (launchable w))).
  { apply (logs_backend_commands w (fun _ => True)); intros; exact I. }
  { apply backend_commands_launchable. }
  intros [| cmd rest] Hl.
  - apply Hpolicy. unfold policy_status. cbn. tauto.
  - now apply try_candidates_status.
Qed.

Lemma exit_status_is_policy_or_pipeline_witness :
  fst (main broken_decoder_host 0 play_request initial) = Val 5 /\
  (policy_status 5 \/
   pipeline_announced_since initial
     (snd (main broken_decoder_host 0 play_request initial))).
Proof.
  split; [reflexivity |].
  apply (exit_status_is_policy_or_pipeline broken_decoder_host 0
           play_request initial
           (snd (main broken_decoder_host 0 play_request initial)) 5).
  reflexivity.
Defined.
